(** * The client preset's TypeScript AST visitor

    A shallow embedding of
    [packages/presets/client/src/typescript-ast-visitor/index.ts]: the
    [leave] callbacks handed to graphql-js [visit], the helpers they call,
    and the assembly of the plugin output.

    Strings are sequences of 8-bit code units.  JavaScript values that the
    callbacks receive in more than one runtime shape (a name that is a
    string after [Name.leave] but an object [{ value }] in the original
    tree, a description that is a [StringValue] node) are tagged unions. *)

From Stdlib Require Import String Ascii List Bool Arith Lia.
Import ListNotations.
Open Scope list_scope.
Open Scope string_scope.

(** ** JavaScript string and array primitives used by the source *)

Module JS.

(** [Array.prototype.join] on an array of strings. *)
Definition join (sep : string) (xs : list string) : string :=
  String.concat sep xs.

(** [String.prototype.startsWith]. *)
Definition startsWith (s p : string) : bool := String.prefix p s.

(** Truthiness of a value that is a string or [undefined]. *)
Definition truthy (o : option string) : bool :=
  match o with
  | Some s => negb (s =? "")
  | None => false
  end.

(** [o || d] for such a value. *)
Definition orElse (o : option string) (d : string) : string :=
  match o with
  | Some s => if s =? "" then d else s
  | None => d
  end.

(** The characters that [.] refuses in a regular expression without the
    [s] flag, among 8-bit code units: line feed and carriage return. *)
Definition isLineTerminator (c : ascii) : bool :=
  (c =? "010")%char || (c =? "013")%char.

Fixpoint noLineTerminator (s : string) : bool :=
  match s with
  | EmptyString => true
  | String c r => negb (isLineTerminator c) && noLineTerminator r
  end.

(** When [s] starts with [p], what follows [p]. *)
Fixpoint dropPrefix (p s : string) : option string :=
  match p with
  | EmptyString => Some s
  | String a p' =>
      match s with
      | EmptyString => None
      | String b s' => if (a =? b)%char then dropPrefix p' s' else None
      end
  end.

(** The match of [(.*?)>$] against the whole of [s]: the captured group.
    Without the [m] flag [$] is the end of input, so the closing [>] is
    the last character and the lazy group is everything before it,
    provided no line terminator occurs there. *)
Fixpoint matchGroupToEnd (s : string) : option string :=
  match s with
  | EmptyString => None
  | String c r =>
      match r with
      | EmptyString => if (c =? ">")%char then Some EmptyString else None
      | String _ _ =>
          if isLineTerminator c then None
          else option_map (String c) (matchGroupToEnd r)
      end
  end.

(** [s.replace(/P(.*?)>$/, '$1')] for a literal text [P]: the leftmost
    position at which the pattern matches is replaced by the group (the
    match reaches the end of the string); no match leaves [s] as it is. *)
Fixpoint replaceWrapper (p s : string) : string :=
  match
    match dropPrefix p s with
    | Some rest => matchGroupToEnd rest
    | None => None
    end
  with
  | Some group => group
  | None =>
      match s with
      | EmptyString => EmptyString
      | String c r => String c (replaceWrapper p r)
      end
  end.

(** Property names every plain object inherits from [Object.prototype];
    [o[k]] is truthy for them even when [k] is not a key of [o]. *)
Definition objectPrototypeKeys : list string :=
  [ "constructor"; "toString"; "toLocaleString"; "valueOf";
    "hasOwnProperty"; "isPrototypeOf"; "propertyIsEnumerable";
    "__proto__"; "__defineGetter__"; "__defineSetter__";
    "__lookupGetter__"; "__lookupSetter__" ].

(** A plain object used as a map, keys in insertion order. *)
Definition object (V : Type) : Type := list (string * V).

Fixpoint get {V : Type} (o : object V) (k : string) : option V :=
  match o with
  | [] => None
  | (k', v) :: r => if k' =? k then Some v else get r k
  end.

(** Truthiness of [o[k]], [truthyV] being the truthiness of the values. *)
Definition truthyAt {V : Type} (truthyV : V -> bool) (o : object V)
    (k : string) : bool :=
  match get o k with
  | Some v => truthyV v
  | None => existsb (String.eqb k) objectPrototypeKeys
  end.

(** The double quote character, as a string. *)
Definition dquote : string := String "034"%char EmptyString.

End JS.

(** What a callback produces: a value, or a thrown [Error] with its message. *)
Inductive result (A : Type) : Type :=
| Ok (a : A)
| Throw (message : string).
Arguments Ok {A} a.
Arguments Throw {A} message.

Definition bind {A B : Type} (r : result A) (k : A -> result B) : result B :=
  match r with
  | Ok a => k a
  | Throw m => Throw m
  end.

Notation "x <- r ;; k" := (bind r (fun x => k))
  (at level 61, r at next level, right associativity).

Fixpoint mapM {A B : Type} (f : A -> result B) (xs : list A)
    : result (list B) :=
  match xs with
  | [] => Ok []
  | x :: r => y <- f x ;; ys <- mapM f r ;; Ok (y :: ys)
  end.

(** ** The schema document *)

Inductive Kind : Type :=
| DOCUMENT | NAMED_TYPE | LIST_TYPE | NON_NULL_TYPE
| FIELD_DEFINITION | INPUT_VALUE_DEFINITION
| SCHEMA_DEFINITION | SCALAR_TYPE_DEFINITION | OBJECT_TYPE_DEFINITION
| INTERFACE_TYPE_DEFINITION | UNION_TYPE_DEFINITION | ENUM_TYPE_DEFINITION
| INPUT_OBJECT_TYPE_DEFINITION | DIRECTIVE_DEFINITION.

Definition Kind_eq_dec (a b : Kind) : {a = b} + {a <> b}.
Proof. decide equality. Defined.

Inductive TypeNode : Type :=
| NamedType (name : string)
| ListType (type : TypeNode)
| NonNullType (type : TypeNode).

Definition isNonNullType (t : TypeNode) : bool :=
  match t with
  | NonNullType _ => true
  | _ => false
  end.

(** A value literal: its [kind] ("StringValue", "IntValue", ...) and text. *)
Record ValueNode : Type := { value_kind : string; value_text : string }.

Record ArgumentNode : Type := { arg_name : string; arg_value : ValueNode }.

(** [node.name] at run time: the string [Name.leave] returned, or the
    original [Name] node. *)
Inductive NameRep : Type :=
| NameString (s : string)
| NameObject (value : string).

Record DirectiveNode : Type :=
  { dir_name : NameRep; dir_arguments : list ArgumentNode }.

Record InputValueDefinitionNode : Type :=
  { iv_description : option string;
    iv_name : string;
    iv_type : TypeNode;
    iv_defaultValue : option ValueNode;
    iv_directives : list DirectiveNode }.

Record FieldDefinitionNode : Type :=
  { fd_description : option string;
    fd_name : string;
    fd_arguments : list InputValueDefinitionNode;
    fd_type : TypeNode;
    fd_directives : list DirectiveNode }.

(** Object and interface type definitions have the same children. *)
Record ObjectTypeDefinitionNode : Type :=
  { ot_description : option string;
    ot_name : string;
    ot_interfaces : list string;
    ot_fields : list FieldDefinitionNode }.

Record UnionTypeDefinitionNode : Type :=
  { ut_description : option string;
    ut_name : string;
    ut_types : list string }.

Record InputObjectTypeDefinitionNode : Type :=
  { io_description : option string;
    io_name : string;
    io_fields : list InputValueDefinitionNode }.

Record DirectiveDefinitionNode : Type :=
  { dd_name : string;
    dd_arguments : list InputValueDefinitionNode }.

Inductive DefinitionNode : Type :=
| SchemaDefinition
| ScalarTypeDefinition (name : string)
| ObjectTypeDefinition (node : ObjectTypeDefinitionNode)
| InterfaceTypeDefinition (node : ObjectTypeDefinitionNode)
| UnionTypeDefinition (node : UnionTypeDefinitionNode)
| EnumTypeDefinition (name : string)
| InputObjectTypeDefinition (node : InputObjectTypeDefinitionNode)
| DirectiveDefinition (node : DirectiveDefinitionNode).

Record DocumentNode : Type := { definitions : list DefinitionNode }.

Definition kindOf (d : DefinitionNode) : Kind :=
  match d with
  | SchemaDefinition => SCHEMA_DEFINITION
  | ScalarTypeDefinition _ => SCALAR_TYPE_DEFINITION
  | ObjectTypeDefinition _ => OBJECT_TYPE_DEFINITION
  | InterfaceTypeDefinition _ => INTERFACE_TYPE_DEFINITION
  | UnionTypeDefinition _ => UNION_TYPE_DEFINITION
  | EnumTypeDefinition _ => ENUM_TYPE_DEFINITION
  | InputObjectTypeDefinition _ => INPUT_OBJECT_TYPE_DEFINITION
  | DirectiveDefinition _ => DIRECTIVE_DEFINITION
  end.

(** An entry of the [ancestors] array of [visit]: an enclosing node (its
    kind and, when it has one, [name.value]) or an enclosing array of
    nodes. *)
Inductive Ancestor : Type :=
| AncestorNode (kind : Kind) (name : option string)
| AncestorArray (kinds : list Kind).

(** ** Folded nodes: what a [leave] callback receives as [node] *)

Record FoldedInputValue : Type :=
  { fiv_description : option string;
    fiv_name : string;
    fiv_type : string;
    fiv_defaultValue : option ValueNode;
    fiv_directives : list DirectiveNode }.

Record FoldedField : Type :=
  { ffd_description : option string;
    ffd_name : string;
    ffd_type : string;
    ffd_directives : list DirectiveNode }.

(** A folded object, interface or input-object definition. *)
Record FoldedTypeDefinition : Type :=
  { ftd_description : option string;
    ftd_name : string;
    ftd_fields : list string }.

(** ** Schema, symbol tables and configuration *)

Inductive TypeKind : Type :=
| ScalarKind | ObjectKind | InterfaceKind | UnionKind | EnumKind
| InputObjectKind.

(** A named type of the schema registry: its kind, the oneOf flag, and the
    keys of [getFields()] in declaration order. *)
Record GraphQLNamedType : Type :=
  { typeKind : TypeKind; isOneOf : bool; getFields : list string }.

Record GraphQLSchema : Type :=
  { getType : string -> option GraphQLNamedType }.

Definition isEnumType (t : GraphQLNamedType) : bool :=
  match typeKind t with
  | EnumKind => true
  | _ => false
  end.

(** Modelled from the spec: [isOneOfInputObjectType] of
    visitor-plugin-common, which is outside this source tree; section 4.4:
    an input-object type flagged by the schema as "exactly one field must
    be set".  An absent type is not one. *)
Definition isOneOfInputObjectType (t : option GraphQLNamedType) : bool :=
  match t with
  | Some ty =>
      match typeKind ty with
      | InputObjectKind => isOneOf ty
      | _ => false
      end
  | None => false
  end.

(** An entry of [ParsedScalarsMap]. *)
Record ParsedMapper : Type :=
  { mapper_type : string;
    mapper_isExternal : bool;
    mapper_import : string;
    mapper_source : string;
    mapper_default : bool }.

Definition ParsedScalarsMap : Type := JS.object ParsedMapper.

(** [config.avoidOptionals]: absent, a boolean, or an object of flags. *)
Inductive AvoidOptionals : Type :=
| AvoidUndefined
| AvoidBoolean (b : bool)
| AvoidObject (field inputValue object defaultValue : bool).

Record TypeScriptPluginConfig : Type :=
  { nonOptionalTypename : bool;
    skipTypename : bool;
    immutableTypes : bool;
    noExport : bool;
    addUnderscoreToArgsType : bool;
    onlyEnums : bool;
    onlyOperationTypes : bool;
    futureProofUnions : bool;
    enumPrefix : option bool;
    typesPrefix : option string;
    avoidOptionals : AvoidOptionals;
    directiveArgumentAndInputFieldMappings : option (JS.object string);
    fieldWrapperValue : option string;
    wrapFieldDefinitions : bool;
    wrapEntireFieldDefinitions : bool;
    entireFieldWrapperValue : option string;
    maybeValue : option string;
    inputMaybeValue : option string;
    useTypeImports : bool }.

(** The argument of [transformComment] and [withComment]: nothing
    ([undefined] or [null]), a [StringValue] node, or a string. *)
Inductive CommentArg : Type :=
| NoComment
| CommentNode (value : string)
| CommentText (text : string).

Definition descriptionArg (d : option string) : CommentArg :=
  match d with
  | Some v => CommentNode v
  | None => NoComment
  end.

(** A [DeclarationBlock] as the builder calls of the source leave it: the
    [ignoreExport] option it was constructed with and the argument of each
    call; [withContent] and [withBlock] are [None] when not called. *)
Record DeclarationBlock : Type :=
  { ignoreExport : bool;
    export : bool;
    asKind : string;
    withName : string;
    withComment : CommentArg;
    withContent : option string;
    withBlock : option string }.

(** The functions of visitor-plugin-common, schema-ast and the TypeScript
    printer that the source calls and that live outside this source tree.
    The theorems below are stated for every implementation of them; the
    evaluations on sample schemas use the reference one of [Upstream]. *)
Class Collaborators : Type :=
  { (** [convertFactory({ namingConvention: 'keep' })], applied to the
        name of its node and the [prefix] and [suffix] options. *)
    convert : string -> option string -> option string -> string;
    (** [transformComment(comment, indentLevel)]. *)
    transformComment : CommentArg -> nat -> string;
    (** The [string] getter of a [DeclarationBlock]. *)
    blockString : DeclarationBlock -> string;
    (** The printed [Scalars] type alias, after its re-indentation. *)
    scalarsTypeDeclaration : GraphQLSchema -> ParsedScalarsMap -> string;
    (** The printed [DirectiveArgumentAndInputFieldMappings] alias, empty
        when no directive is mapped. *)
    directivesDeclaration :
      GraphQLSchema -> TypeScriptPluginConfig -> string;
    (** The printed import lists of mapped enums and directives. *)
    enumImportsDeclaration :
      GraphQLSchema -> TypeScriptPluginConfig -> string;
    directiveImportsDeclaration : TypeScriptPluginConfig -> string;
    includeIntrospectionTypesDefinitions :
      GraphQLSchema -> TypeScriptPluginConfig -> list string }.

(** ** The source functions *)

Definition newline : string := String "010"%char EmptyString.

(** [new Array(count).fill('  ').join('') + str]. *)
Definition indent (str : string) (count : nat) : string :=
  JS.join "" (repeat "  " count) ++ str.

(** [directive.name === 'deprecated'], strict equality with a string. *)
Definition nameIs (n : NameRep) (s : string) : bool :=
  match n with
  | NameString t => t =? s
  | NameObject _ => false
  end.

(** [v.name.value === 'deprecated']: a string has no [value] property. *)
Definition nameValueIs (n : NameRep) (s : string) : bool :=
  match n with
  | NameString _ => false
  | NameObject v => v =? s
  end.

(** A name used as a property key or in a template. *)
Definition nameToString (n : NameRep) : string :=
  match n with
  | NameString s => s
  | NameObject _ => "[object Object]"
  end.

(** The result is [None] for the [void] return. *)
Definition getDeprecationReason (directive : DirectiveNode) : option string :=
  if nameIs (dir_name directive) "deprecated" then
    let hasArguments :=
      negb (Nat.eqb (List.length (dir_arguments directive)) 0) in
    let reason := "Field no longer supported" in
    let reason :=
      if hasArguments then
        match dir_arguments directive with
        | a :: _ => value_kind (arg_value a)
        | [] => reason
        end
      else reason in
    Some reason
  else None.

(** [`${x}`] for a string or [undefined]. *)
Definition templateOf (o : option string) : string :=
  match o with
  | Some s => s
  | None => "undefined"
  end.

Definition clearOptional (str : string) : string :=
  if JS.startsWith str "Maybe" then JS.replaceWrapper "Maybe<" str
  else str.

Definition mergeInterfaces (interfaces : list string) (hasOtherFields : bool)
    : string :=
  JS.join " & " interfaces
  ++ (if negb (Nat.eqb (List.length interfaces) 0) && hasOtherFields
      then " & " else "").

(** The kinds of the ancestors: a kind for a node, a list for an array. *)
Definition getKindsFromAncestors (ancestors : list Ancestor)
    : list (Kind + list Kind) :=
  map (fun t =>
         match t with
         | AncestorNode k _ => inl k
         | AncestorArray ks => inr ks
         end) ancestors.

(** [kinds.includes(k)]: only an element that is itself the kind counts. *)
Definition includesKind (kinds : list (Kind + list Kind)) (k : Kind) : bool :=
  existsb (fun e =>
             match e with
             | inl k' => if Kind_eq_dec k' k then true else false
             | inr _ => false
             end) kinds.

Definition MaybeString (ancestors : list Ancestor) (children : string)
    : string :=
  let currentVisitContext := getKindsFromAncestors ancestors in
  let isInputContext :=
    includesKind currentVisitContext INPUT_OBJECT_TYPE_DEFINITION in
  if isInputContext then "InputMaybe<" ++ children ++ ">"
  else "Maybe<" ++ children ++ ">".

(** The [options] of [convertName]; all [None] when it is left out. *)
Record ConvertNameOptions : Type :=
  { opt_useTypesPrefix : option bool;
    opt_useTypesSuffix : option bool;
    opt_typesPrefix : option string;
    opt_typesSuffix : option string }.

Definition noOptions : ConvertNameOptions :=
  {| opt_useTypesPrefix := None; opt_useTypesSuffix := None;
     opt_typesPrefix := None; opt_typesSuffix := None |}.

Definition setContent (b : DeclarationBlock) (c : string) : DeclarationBlock :=
  {| ignoreExport := ignoreExport b; export := export b; asKind := asKind b;
     withName := withName b; withComment := withComment b;
     withContent := Some c; withBlock := withBlock b |}.

Definition setBlock (b : DeclarationBlock) (c : string) : DeclarationBlock :=
  {| ignoreExport := ignoreExport b; export := export b; asKind := asKind b;
     withName := withName b; withComment := withComment b;
     withContent := withContent b; withBlock := Some c |}.

Definition appendInterfacesAndFieldsToBlock (block : DeclarationBlock)
    (interfaces fields : list string) : DeclarationBlock :=
  let block :=
    setContent block
      (mergeInterfaces interfaces (negb (Nat.eqb (List.length fields) 0))) in
  setBlock block (JS.join newline fields).

(** The variable part of [buildFieldDefinition], the closure of the
    [InputValueDefinition] callback, with the variables it captures. *)
Definition buildFieldDefinition (readonlyPrefix name type : string)
    (addOptionalSign isOneOf : bool) : string :=
  readonlyPrefix ++ name
  ++ (if addOptionalSign && negb isOneOf then "?" else "")
  ++ ": " ++ (if isOneOf then clearOptional type else type) ++ ";".

Definition oneOfError : string :=
  "Fields on an input object type can not be non-nullable. It seems like the schema was not validated.".

(** Reading [name.value] of an ancestor that has no [name]. *)
Definition typeError : string :=
  "TypeError: Cannot read properties of undefined (reading 'value')".

Definition leaveNonNullType (type : string) : string :=
  if JS.startsWith type "Maybe" then JS.replaceWrapper "Maybe<" type
  else if JS.startsWith type "InputMaybe" then
    JS.replaceWrapper "InputMaybe<" type
  else type.

Definition leaveListType (ancestors : list Ancestor) (type : string) : string :=
  MaybeString ancestors ("Array<" ++ type ++ ">").

Definition _getDirectiveOverrideType (directives : list DirectiveNode)
    (config : TypeScriptPluginConfig) : option string :=
  let type :=
    find (fun a => match a with Some _ => true | None => false end)
      (rev
         (map (fun directive =>
                 let directiveName := nameToString (dir_name directive) in
                 match directiveArgumentAndInputFieldMappings config with
                 | Some mappings =>
                     if JS.truthyAt (fun v => negb (v =? "")) mappings
                          directiveName
                     then Some ("DirectiveArgumentAndInputFieldMappings['"
                                ++ directiveName ++ "']")
                     else None
                 | None => None
                 end) directives)) in
  match type with
  | Some (Some t) => Some t
  | _ => None
  end.

Section Visitor.

Context `{Collaborators}.
Variable config : TypeScriptPluginConfig.
Variable schema : GraphQLSchema.
Variable scalarsMap : ParsedScalarsMap.

Definition getNodeComment (description : option string)
    (directives : list DirectiveNode) : string :=
  let deprecationDirective :=
    find (fun v => nameValueIs (dir_name v) "deprecated") directives in
  let commentText :=
    match deprecationDirective with
    | Some d =>
        let deprecationReason := getDeprecationReason d in
        CommentText
          ((match description with
            | Some _ => "[object Object]" ++ newline
            | None => ""
            end)
           ++ "@deprecated " ++ templateOf deprecationReason)
    | None => descriptionArg description
    end in
  transformComment commentText 1.

Definition convertName (name : string) (options : ConvertNameOptions)
    : string :=
  let useTypesPrefix :=
    match opt_useTypesPrefix options with Some b => b | None => true end in
  let useTypesSuffix :=
    match opt_useTypesSuffix options with Some b => b | None => true end in
  (if useTypesPrefix && JS.truthy (opt_typesPrefix options)
   then templateOf (opt_typesPrefix options) else "")
  ++ convert name (opt_typesPrefix options) (opt_typesSuffix options)
  ++ (if useTypesSuffix && JS.truthy (opt_typesSuffix options)
      then templateOf (opt_typesSuffix options) else "").

Definition newDeclarationBlock (kind name : string) (comment : CommentArg)
    : DeclarationBlock :=
  {| ignoreExport := noExport config; export := true; asKind := kind;
     withName := name; withComment := comment;
     withContent := None; withBlock := None |}.

Definition getObjectTypeDeclarationBlock (node : FoldedTypeDefinition)
    (originalNode : ObjectTypeDefinitionNode) : DeclarationBlock :=
  let optionalTypename :=
    if nonOptionalTypename config then "__typename" else "__typename?" in
  let allFields :=
    List.app
      (if skipTypename config then []
       else [indent ((if immutableTypes config then "readonly " else "")
                     ++ optionalTypename ++ ": '" ++ ftd_name node ++ "';")
               1])
      (ftd_fields node) in
  let interfacesNames :=
    map (fun i => convertName i noOptions) (ot_interfaces originalNode) in
  let declarationBlock :=
    newDeclarationBlock "type" (convertName (ftd_name node) noOptions)
      (descriptionArg (ftd_description node)) in
  appendInterfacesAndFieldsToBlock declarationBlock interfacesNames
    allFields.

Definition buildArgumentsBlock (node : ObjectTypeDefinitionNode) : string :=
  let fieldsWithArguments :=
    filter (fun field => negb (Nat.eqb (List.length (fd_arguments field)) 0))
      (ot_fields node) in
  JS.join newline
    (map (fun field =>
            let name :=
              ot_name node
              ++ (if addUnderscoreToArgsType config then "_" else "")
              ++ convertName (fd_name field)
                   {| opt_useTypesPrefix := Some false;
                      opt_useTypesSuffix := Some false;
                      opt_typesPrefix := None; opt_typesSuffix := None |}
              ++ "Args" in
            if onlyEnums config then ""
            else blockString
                   (newDeclarationBlock "type" (convertName name noOptions)
                      (descriptionArg (ot_description node))))
       fieldsWithArguments).

Definition getTypeForNode (typename : string) : string :=
  if JS.truthyAt (fun _ => true) scalarsMap typename then
    "Scalars['" ++ typename ++ "']"
  else
    match getType schema typename with
    | Some schemaType =>
        if isEnumType schemaType then
          convertName typename
            {| opt_useTypesPrefix := enumPrefix config;
               opt_useTypesSuffix := None;
               opt_typesPrefix := typesPrefix config;
               opt_typesSuffix := None |}
        else convertName typename noOptions
    | None => convertName typename noOptions
    end.

Definition leaveNamedType (ancestors : list Ancestor) (name : string)
    : string :=
  let isVisitingInputType :=
    includesKind (getKindsFromAncestors ancestors)
      INPUT_OBJECT_TYPE_DEFINITION in
  let typeToUse := getTypeForNode name in
  let typeToUse :=
    if negb isVisitingInputType && JS.truthy (fieldWrapperValue config)
       && wrapFieldDefinitions config
    then "FieldWrapper<" ++ typeToUse ++ ">" else typeToUse in
  MaybeString ancestors typeToUse.

(** The parts of one oneOf variant, over the keys of
    [parentType.getFields()]. *)
Definition oneOfFieldParts (readonlyPrefix : string)
    (fieldNames : list string) (nodeName selected : string) : list string :=
  map (fun fieldName =>
         if fieldName =? nodeName then selected
         else readonlyPrefix ++ fieldName ++ "?: never;") fieldNames.

(** The [type] of the [InputValueDefinition] callback: the folded type,
    unless directive mappings are configured and one applies. *)
Definition overriddenType (node : FoldedInputValue) : string :=
  match directiveArgumentAndInputFieldMappings config with
  | Some _ =>
      match _getDirectiveOverrideType (fiv_directives node) config with
      | Some t => t
      | None => fiv_type node
      end
  | None => fiv_type node
  end.

Definition leaveInputValueDefinition (node : FoldedInputValue)
    (originalFieldNode : InputValueDefinitionNode)
    (ancestors : list Ancestor) : result string :=
  let '(avoidInputValue, avoidDefaultValue) :=
    match avoidOptionals config with
    | AvoidObject _ i _ d => (i, d)
    | _ => (false, false)
    end in
  let addOptionalSign :=
    negb avoidInputValue
    && (negb (isNonNullType (iv_type originalFieldNode))
        || (negb avoidDefaultValue
            && match fiv_defaultValue node with
               | Some _ => true
               | None => false
               end)) in
  let comment :=
    getNodeComment (fiv_description node) (fiv_directives node) in
  let type := overriddenType node in
  let readonlyPrefix := if immutableTypes config then "readonly " else "" in
  let build := buildFieldDefinition readonlyPrefix (fiv_name node) type
                 addOptionalSign in
  match last (map Some ancestors) None with
  | Some (AncestorNode _ (Some parentName)) =>
      let parentType := getType schema parentName in
      if isOneOfInputObjectType parentType then
        if isNonNullType (iv_type originalFieldNode) then Throw oneOfError
        else
          let fieldParts :=
            oneOfFieldParts readonlyPrefix
              (match parentType with
               | Some t => getFields t
               | None => []
               end)
              (fiv_name node) (build true) in
          Ok (comment
              ++ indent ("{ " ++ JS.join " " fieldParts ++ " }") 1)
      else Ok (comment ++ indent (build false) 1)
  | Some _ => Throw typeError
  | None => Ok (comment ++ indent (build false) 1)
  end.

Definition leaveFieldDefinition (node : FoldedField)
    (originalFieldNode : FieldDefinitionNode) : string :=
  let typeString :=
    if wrapFieldDefinitions config
    then "EntireFieldWrapper<" ++ ffd_type node ++ ">"
    else ffd_type node in
  let avoidField :=
    match avoidOptionals config with
    | AvoidObject f _ _ _ => f
    | _ => false
    end in
  let addOptionalSign :=
    negb avoidField && negb (isNonNullType (fd_type originalFieldNode)) in
  let comment :=
    getNodeComment (ffd_description node) (ffd_directives node) in
  comment
  ++ indent ((if immutableTypes config then "readonly " else "")
             ++ ffd_name node ++ (if addOptionalSign then "?" else "")
             ++ ": " ++ typeString ++ ";") 1.

(** The function mapped over [originalNode.types] of a union. *)
Definition possibleType (t : string) : string :=
  if JS.truthyAt (fun _ => true) scalarsMap t then "Scalars['" ++ t ++ "']"
  else convertName t noOptions.

Definition leaveUnionTypeDefinition (node : UnionTypeDefinitionNode)
    (originalNode : UnionTypeDefinitionNode) : string :=
  if onlyOperationTypes config || onlyEnums config then ""
  else
    let withFutureAddedValue :=
      if futureProofUnions config then
        [ if immutableTypes config
          then "{ readonly __typename?: " ++ JS.dquote ++ "%other"
               ++ JS.dquote ++ " }"
          else "{ __typename?: " ++ JS.dquote ++ "%other" ++ JS.dquote
               ++ " }" ]
      else [] in
    let possibleTypes :=
      JS.join " | "
        (List.app (map possibleType (ut_types originalNode))
           withFutureAddedValue) in
    blockString
      (setContent
         (newDeclarationBlock "type" (convertName (ut_name node) noOptions)
            (descriptionArg (ut_description node)))
         possibleTypes).

Definition leaveInterfaceTypeDefinition (node : FoldedTypeDefinition)
    (originalNode : ObjectTypeDefinitionNode) : string :=
  if onlyOperationTypes config || onlyEnums config then ""
  else
    let declarationBlock :=
      setBlock
        (newDeclarationBlock "interface"
           (convertName (ftd_name node) noOptions)
           (descriptionArg (ftd_description node)))
        (JS.join newline (ftd_fields node)) in
    JS.join (newline ++ newline)
      (filter (fun f => negb (f =? ""))
         [blockString declarationBlock; buildArgumentsBlock originalNode]).

Definition leaveObjectTypeDefinition (node : FoldedTypeDefinition)
    (originalNode : ObjectTypeDefinitionNode) : string :=
  if onlyOperationTypes config || onlyEnums config then ""
  else
    JS.join ""
      [blockString (getObjectTypeDeclarationBlock node originalNode);
       buildArgumentsBlock originalNode].

Definition leaveInputObjectTypeDefinition (node : FoldedTypeDefinition)
    : string :=
  if onlyEnums config then ""
  else if isOneOfInputObjectType (getType schema (ftd_name node)) then
    let declarationKind := "type" in
    blockString
      (setContent
         (newDeclarationBlock declarationKind
            (convertName (ftd_name node) noOptions)
            (descriptionArg (ftd_description node)))
         (newline ++ JS.join (newline ++ "  |") (ftd_fields node)))
  else
    blockString
      (setBlock
         (newDeclarationBlock "type"
            (convertName (ftd_name node) noOptions)
            (descriptionArg (ftd_description node)))
         (JS.join newline (ftd_fields node))).

End Visitor.

(** ** The traversal

    [visit] calls a [leave] callback with the node whose children are
    already replaced by what their callbacks returned, the original node
    ([parent[key]]), and [ancestors]: the enclosing nodes and arrays from
    the root down to, but not including, the node's immediate parent.  A
    child of a node [n] therefore sees the ancestors of [n], then the
    parent of [n], and has [n] as its parent. *)

Inductive Fragment : Type :=
| Text (s : string)
| Untouched.

Record ComplexPluginOutput : Type :=
  { prepend : list string; content : string }.

Definition EXACT_SIGNATURE : string :=
  "type Exact<T extends { [key: string]: unknown }> = { [K in keyof T]: T[K] };".
Definition MAKE_OPTIONAL_SIGNATURE : string :=
  "type MakeOptional<T, K extends keyof T> = Omit<T, K> & { [SubKey in K]?: Maybe<T[SubKey]> };".
Definition MAKE_MAYBE_SIGNATURE : string :=
  "type MakeMaybe<T, K extends keyof T> = Omit<T, K> & { [SubKey in K]: Maybe<T[SubKey]> };".

Definition buildTypeImport (identifier source : string)
    (asDefault useTypeImports : bool) : string :=
  if asDefault then
    if useTypeImports then
      "import type { default as " ++ identifier ++ " } from '" ++ source
      ++ "';"
    else "import " ++ identifier ++ " from '" ++ source ++ "';"
  else
    "import" ++ (if useTypeImports then " type" else "") ++ " { "
    ++ identifier ++ " } from '" ++ source ++ "';".

Definition getScalarsImports (scalars : ParsedScalarsMap)
    (useTypeImports : bool) : list string :=
  filter (fun s => negb (s =? ""))
    (map (fun entry =>
            let mappedValue := snd entry in
            if mapper_isExternal mappedValue then
              buildTypeImport (mapper_import mappedValue)
                (mapper_source mappedValue) (mapper_default mappedValue)
                useTypeImports
            else "") scalars).

Definition getWrapperDefinitions (config : TypeScriptPluginConfig)
    : list string :=
  if onlyEnums config then []
  else
    let exportPrefix := if noExport config then "" else "export " in
    let exactDefinition := exportPrefix ++ EXACT_SIGNATURE in
    let optionalDefinition := exportPrefix ++ MAKE_OPTIONAL_SIGNATURE in
    let maybeDefinition := exportPrefix ++ MAKE_MAYBE_SIGNATURE in
    let maybeValue :=
      exportPrefix ++ "type Maybe<T> = "
      ++ JS.orElse (maybeValue config) "T | null" ++ ";" in
    let inputMaybeValue :=
      exportPrefix ++ "type InputMaybe<T> = "
      ++ JS.orElse (inputMaybeValue config) "Maybe<T>" ++ ";" in
    List.app
      [maybeValue; inputMaybeValue; exactDefinition; optionalDefinition;
       maybeDefinition]
      (List.app
         (if wrapFieldDefinitions config then
            [exportPrefix ++ "type FieldWrapper<T> = "
             ++ templateOf (fieldWrapperValue config) ++ ";"]
          else [])
         (if wrapEntireFieldDefinitions config then
            [exportPrefix ++ "type EntireFieldWrapper<T> = "
             ++ JS.orElse (entireFieldWrapperValue config) "T" ++ ";"]
          else [])).

(** [Name.leave] inside a directive: the name becomes its string. *)
Definition visitDirective (d : DirectiveNode) : DirectiveNode :=
  {| dir_name :=
       NameString (match dir_name d with
                   | NameObject v => v
                   | NameString s => s
                   end);
     dir_arguments := dir_arguments d |}.

(** An element of the assembled content, in [filter(Boolean)] and [join]. *)
Definition fragmentTruthy (f : Fragment) : bool :=
  match f with
  | Text s => negb (s =? "")
  | Untouched => true
  end.

Definition fragmentToString (f : Fragment) : string :=
  match f with
  | Text s => s
  | Untouched => "[object Object]"
  end.

Section Fold.

Context `{Collaborators}.
Variable config : TypeScriptPluginConfig.
Variable schema : GraphQLSchema.
Variable scalarsMap : ParsedScalarsMap.

Fixpoint visitType (ancestors : list Ancestor) (parent : Ancestor)
    (t : TypeNode) : string :=
  match t with
  | NamedType name => leaveNamedType config schema scalarsMap ancestors name
  | ListType t' =>
      leaveListType ancestors
        (visitType (List.app ancestors [parent])
           (AncestorNode LIST_TYPE None) t')
  | NonNullType t' =>
      leaveNonNullType
        (visitType (List.app ancestors [parent])
           (AncestorNode NON_NULL_TYPE None) t')
  end.

(** An input value once its children are folded. *)
Definition foldInputValue (ancestors : list Ancestor) (parent : Ancestor)
    (iv : InputValueDefinitionNode) : FoldedInputValue :=
  let self := AncestorNode INPUT_VALUE_DEFINITION (Some (iv_name iv)) in
  {| fiv_description := iv_description iv;
     fiv_name := iv_name iv;
     fiv_type := visitType (List.app ancestors [parent]) self (iv_type iv);
     fiv_defaultValue := iv_defaultValue iv;
     fiv_directives := map visitDirective (iv_directives iv) |}.

Definition visitInputValueDefinition (ancestors : list Ancestor)
    (parent : Ancestor) (iv : InputValueDefinitionNode) : result string :=
  leaveInputValueDefinition config schema
    (foldInputValue ancestors parent iv) iv ancestors.

(** The input values of the array [ivs], a child of the node [self]. *)
Definition visitInputValues (ancestors : list Ancestor)
    (parent self : Ancestor) (ivs : list InputValueDefinitionNode)
    : result (list string) :=
  mapM (visitInputValueDefinition (List.app ancestors [parent; self])
          (AncestorArray (map (fun _ => INPUT_VALUE_DEFINITION) ivs)))
    ivs.

Definition visitFieldDefinition (ancestors : list Ancestor)
    (parent : Ancestor) (fd : FieldDefinitionNode) : result string :=
  let self := AncestorNode FIELD_DEFINITION (Some (fd_name fd)) in
  _ <- visitInputValues ancestors parent self (fd_arguments fd) ;;
  Ok (leaveFieldDefinition config
        {| ffd_description := fd_description fd;
           ffd_name := fd_name fd;
           ffd_type :=
             visitType (List.app ancestors [parent]) self (fd_type fd);
           ffd_directives := map visitDirective (fd_directives fd) |}
        fd).

Definition visitFields (ancestors : list Ancestor) (parent self : Ancestor)
    (fds : list FieldDefinitionNode) : result (list string) :=
  mapM (visitFieldDefinition (List.app ancestors [parent; self])
          (AncestorArray (map (fun _ => FIELD_DEFINITION) fds)))
    fds.

(** A definition of a printed schema.  The directives of a definition, the
    named types under [interfaces] and [types] and the values of an enum
    are visited too; no callback uses what they fold to and none of their
    callbacks raises, and an enum definition, which has no callback, stays
    a node. *)
Definition visitDefinition (ancestors : list Ancestor) (parent : Ancestor)
    (d : DefinitionNode) : result Fragment :=
  match d with
  | SchemaDefinition => Ok (Text "")
  | ScalarTypeDefinition _ => Ok (Text "")
  | EnumTypeDefinition _ => Ok Untouched
  | DirectiveDefinition n =>
      _ <- visitInputValues ancestors parent
             (AncestorNode DIRECTIVE_DEFINITION (Some (dd_name n)))
             (dd_arguments n) ;;
      Ok (Text "")
  | UnionTypeDefinition n =>
      Ok (Text (leaveUnionTypeDefinition config scalarsMap n n))
  | ObjectTypeDefinition n =>
      fields <- visitFields ancestors parent
                  (AncestorNode OBJECT_TYPE_DEFINITION (Some (ot_name n)))
                  (ot_fields n) ;;
      Ok (Text (leaveObjectTypeDefinition config
                  {| ftd_description := ot_description n;
                     ftd_name := ot_name n;
                     ftd_fields := fields |} n))
  | InterfaceTypeDefinition n =>
      fields <- visitFields ancestors parent
                  (AncestorNode INTERFACE_TYPE_DEFINITION
                     (Some (ot_name n)))
                  (ot_fields n) ;;
      Ok (Text (leaveInterfaceTypeDefinition config
                  {| ftd_description := ot_description n;
                     ftd_name := ot_name n;
                     ftd_fields := fields |} n))
  | InputObjectTypeDefinition n =>
      fields <- visitInputValues ancestors parent
                  (AncestorNode INPUT_OBJECT_TYPE_DEFINITION
                     (Some (io_name n)))
                  (io_fields n) ;;
      Ok (Text (leaveInputObjectTypeDefinition config schema
                  {| ftd_description := io_description n;
                     ftd_name := io_name n;
                     ftd_fields := fields |}))
  end.

(** [visit(gqlDocumentNode, { ... }).definitions]. *)
Definition visit (gqlDocumentNode : DocumentNode) : result (list Fragment) :=
  mapM (visitDefinition [AncestorNode DOCUMENT None]
          (AncestorArray (map kindOf (definitions gqlDocumentNode))))
    (definitions gqlDocumentNode).

(** The plugin, given the schema and document [transformSchemaAST]
    returned and the scalars [buildScalarsFromConfig] returned. *)
Definition plugin (gqlDocumentNode : DocumentNode)
    : result ComplexPluginOutput :=
  visitorResult <- visit gqlDocumentNode ;;
  let introspectionDefinitions :=
    includeIntrospectionTypesDefinitions schema config in
  Ok {| prepend :=
          filter (fun s => negb (s =? ""))
            (List.app
               [enumImportsDeclaration schema config;
                directiveImportsDeclaration config]
               (List.app
                  (getScalarsImports scalarsMap (useTypeImports config))
                  (getWrapperDefinitions config)));
        content :=
          JS.join newline
            (map fragmentToString
               (filter fragmentTruthy
                  (List.app
                     [Text (scalarsTypeDeclaration schema scalarsMap
                            ++ newline);
                      Text (directivesDeclaration schema config)]
                     (List.app visitorResult
                        (map Text introspectionDefinitions))))) |}.

End Fold.

(** ** A reference implementation of the collaborators

    Used only to evaluate the visitor on concrete schemas. *)

Module Upstream.

(** [str.replace(/ +\n/g, '\n')]: [pending] is the run of spaces read
    and not yet emitted. *)
Fixpoint stripTrailingSpacesFrom (pending s : string) : string :=
  match s with
  | EmptyString => pending
  | String c r =>
      if (c =? " ")%char then stripTrailingSpacesFrom (String c pending) r
      else if (c =? "010")%char then String c (stripTrailingSpacesFrom "" r)
      else pending ++ String c (stripTrailingSpacesFrom "" r)
  end.

Definition stripTrailingSpaces (s : string) : string :=
  stripTrailingSpacesFrom "" s.

(** [comment.split('*/').join('*\\/')]. *)
Fixpoint escapeCommentEnd (s : string) : string :=
  match s with
  | String "*" (String "/" r) => "*\/" ++ escapeCommentEnd r
  | String c r => String c (escapeCommentEnd r)
  | EmptyString => EmptyString
  end.

(** [s.split('\n')], the line being read in [line]. *)
Fixpoint splitLinesFrom (line s : string) : list string :=
  match s with
  | EmptyString => [line]
  | String c r =>
      if (c =? "010")%char then line :: splitLinesFrom "" r
      else splitLinesFrom (line ++ String c "") r
  end.

(** Modelled from the spec: [convertFactory] of visitor-plugin-common,
    outside this source tree; section 6: a naming function
    [(node-or-name, {prefix?, suffix?}) -> identifier].  With the [keep]
    convention the source asks for, the name between the two options. *)
Definition convert (name : string) (prefix suffix : option string)
    : string :=
  JS.orElse prefix "" ++ name ++ JS.orElse suffix "".

(** Modelled from the spec: [transformComment] of visitor-plugin-common,
    outside this source tree; section 4.3: the leading comment of a
    declaration or member.  Nothing for an absent or empty comment, a
    one-line doc comment for one line, a doc block otherwise. *)
Definition transformComment (comment : CommentArg) (indentLevel : nat)
    : string :=
  let render (text : string) :=
    match splitLinesFrom "" (escapeCommentEnd text) with
    | [line] => indent ("/** " ++ line ++ " */" ++ newline) indentLevel
    | lines =>
        stripTrailingSpaces
          (JS.join newline
             (map (fun line => indent line indentLevel)
                (List.app ("/**" :: map (fun line => " * " ++ line) lines)
                   [" */" ++ newline])))
    end in
  match comment with
  | NoComment => ""
  | CommentText "" => ""
  | CommentText text => render text
  | CommentNode value => render value
  end.

Definition isIn (s : string) (xs : list string) : bool :=
  existsb (String.eqb s) xs.

(** Modelled from the spec: the [string] getter of [DeclarationBlock] of
    visitor-plugin-common, outside this source tree; section 3: a named,
    exported or unexported, optionally commented textual unit.  The
    comment, [export], the kind, the name, [=] for an alias, then the
    content and the braced block, [{}] when there is neither, and a
    closing semicolon except after an interface. *)
Definition blockString (b : DeclarationBlock) : string :=
  let comment :=
    match withComment b with
    | CommentNode "" => ""
    | c => transformComment c 0
    end in
  let head :=
    (if export b && negb (ignoreExport b) then "export " else "")
    ++ (if asKind b =? "" then ""
        else asKind b ++ " "
             ++ (if withName b =? "" then "" else withName b ++ " ")
             ++ (if isIn (asKind b) ["type"; "const"; "var"; "let"]
                 then "= " else "")) in
  let body :=
    if JS.truthy (withBlock b) then
      JS.orElse (withContent b) ""
      ++ JS.join newline ["{"; JS.orElse (withBlock b) ""; "}"]
    else if JS.truthy (withContent b) then JS.orElse (withContent b) ""
    else if asKind b =? "" then "" else "{}" in
  stripTrailingSpaces
    (comment ++ head ++ body
     ++ (if isIn (asKind b) ["interface"; "enum"; "namespace"; "function"]
         then "" else ";")
     ++ newline).

(** The printer and the introspection helper are not modelled: the
    reference prints an empty [Scalars] alias and no imports. *)
Definition collaborators : Collaborators :=
  Build_Collaborators convert transformComment blockString
    (fun _ _ => "export type Scalars = {};")
    (fun _ _ => "") (fun _ _ => "") (fun _ => "") (fun _ _ => []).

End Upstream.

(** ** The specification's words *)

(** Input position: some ancestor is an input-object definition. *)
Definition hasInputObjectAncestor (ancestors : list Ancestor) : Prop :=
  exists name,
    In (AncestorNode INPUT_OBJECT_TYPE_DEFINITION name) ancestors.

(** The wrapper of a position, applied to a rendered type. *)
Definition inputWrapper (rendered : string) : string :=
  "InputMaybe<" ++ rendered ++ ">".

Definition outputWrapper (rendered : string) : string :=
  "Maybe<" ++ rendered ++ ">".

Section Specification.

Context `{Collaborators}.
Variable config : TypeScriptPluginConfig.
Variable schema : GraphQLSchema.
Variable scalarsMap : ParsedScalarsMap.

(** The variant of a oneOf input object for its field [f]: every declared
    field in declaration order, [f] with its type and no optional sign,
    every other one as [name?: never;], after the comment of [f]. *)
Definition oneOfVariant (ancestors : list Ancestor) (parent : Ancestor)
    (fields : list InputValueDefinitionNode) (f : InputValueDefinitionNode)
    : string :=
  let readonlyPrefix := if immutableTypes config then "readonly " else "" in
  transformComment (descriptionArg (iv_description f)) 1
  ++ indent
       ("{ "
        ++ JS.join " "
             (map (fun g =>
                     if iv_name g =? iv_name f then
                       readonlyPrefix ++ iv_name f ++ ": "
                       ++ clearOptional
                            (overriddenType config
                               (foldInputValue config schema scalarsMap
                                  ancestors parent f))
                       ++ ";"
                     else readonlyPrefix ++ iv_name g ++ "?: never;") fields)
        ++ " }") 1.

(** The lines of the synthetic discriminant: one unless it is skipped. *)
Definition discriminantLines (typeName : string) : list string :=
  if skipTypename config then []
  else
    [ "  " ++ (if immutableTypes config then "readonly " else "")
      ++ (if nonOptionalTypename config then "__typename" else "__typename?")
      ++ ": '" ++ typeName ++ "';" ].

End Specification.

(** ** Sample schemas *)

Module Sample.

Definition config : TypeScriptPluginConfig :=
  {| nonOptionalTypename := false; skipTypename := false;
     immutableTypes := false; noExport := false;
     addUnderscoreToArgsType := false; onlyEnums := false;
     onlyOperationTypes := false; futureProofUnions := false;
     enumPrefix := None; typesPrefix := None;
     avoidOptionals := AvoidUndefined;
     directiveArgumentAndInputFieldMappings := None;
     fieldWrapperValue := None; wrapFieldDefinitions := false;
     wrapEntireFieldDefinitions := false; entireFieldWrapperValue := None;
     maybeValue := None; inputMaybeValue := None; useTypeImports := false |}.

Definition operationsOnly : TypeScriptPluginConfig :=
  {| nonOptionalTypename := false; skipTypename := false;
     immutableTypes := false; noExport := false;
     addUnderscoreToArgsType := false; onlyEnums := false;
     onlyOperationTypes := true; futureProofUnions := false;
     enumPrefix := None; typesPrefix := None;
     avoidOptionals := AvoidUndefined;
     directiveArgumentAndInputFieldMappings := None;
     fieldWrapperValue := None; wrapFieldDefinitions := false;
     wrapEntireFieldDefinitions := false; entireFieldWrapperValue := None;
     maybeValue := None; inputMaybeValue := None; useTypeImports := false |}.

Definition builtin (type : string) : ParsedMapper :=
  {| mapper_type := type; mapper_isExternal := false; mapper_import := "";
     mapper_source := ""; mapper_default := false |}.

(** The default scalars and a custom [DateTime] mapped to [Date]. *)
Definition scalars : ParsedScalarsMap :=
  [ ("ID", builtin "string"); ("String", builtin "string");
    ("Boolean", builtin "boolean"); ("Int", builtin "number");
    ("Float", builtin "number"); ("DateTime", builtin "Date") ].

Definition inputValue (name : string) (type : TypeNode)
    : InputValueDefinitionNode :=
  {| iv_description := None; iv_name := name; iv_type := type;
     iv_defaultValue := None; iv_directives := [] |}.

Definition field (name : string) (arguments : list InputValueDefinitionNode)
    (type : TypeNode) (directives : list DirectiveNode)
    : FieldDefinitionNode :=
  {| fd_description := None; fd_name := name; fd_arguments := arguments;
     fd_type := type; fd_directives := directives |}.

(** [input Pick @oneOf { a: Int, b: String }]. *)
Definition pick : InputObjectTypeDefinitionNode :=
  {| io_description := None; io_name := "Pick";
     io_fields := [ inputValue "a" (NamedType "Int");
                    inputValue "b" (NamedType "String") ] |}.

(** [input Broken @oneOf { a: Int, b: String! }]. *)
Definition broken : InputObjectTypeDefinitionNode :=
  {| io_description := None; io_name := "Broken";
     io_fields := [ inputValue "a" (NamedType "Int");
                    inputValue "b" (NonNullType (NamedType "String")) ] |}.

Definition oneOfType : GraphQLNamedType :=
  {| typeKind := InputObjectKind; isOneOf := true; getFields := ["a"; "b"] |}.

Definition schema : GraphQLSchema :=
  {| getType := fun name =>
       if (name =? "Pick") || (name =? "Broken") then Some oneOfType
       else if name =? "Filter" then
         Some {| typeKind := InputObjectKind; isOneOf := false;
                 getFields := ["a"; "b"] |}
       else None |}.

(** [@deprecated] and [@deprecated(reason: "use fresh")], as parsed. *)
Definition deprecated : DirectiveNode :=
  {| dir_name := NameObject "deprecated"; dir_arguments := [] |}.

Definition deprecatedBecause : DirectiveNode :=
  {| dir_name := NameObject "deprecated";
     dir_arguments :=
       [ {| arg_name := "reason";
            arg_value := {| value_kind := "StringValue";
                            value_text := "use fresh" |} |} ] |}.

(** [type Query { user(id: ID!): User  old: Int @deprecated
      stale: Int @deprecated(reason: "use fresh") }]. *)
Definition query : ObjectTypeDefinitionNode :=
  {| ot_description := None; ot_name := "Query"; ot_interfaces := [];
     ot_fields :=
       [ field "user" [inputValue "id" (NonNullType (NamedType "ID"))]
           (NamedType "User") [];
         field "old" [] (NamedType "Int") [deprecated];
         field "stale" [] (NamedType "Int") [deprecatedBecause] ] |}.

(** [type Cat implements Node & Animal], no field of its own. *)
Definition cat : ObjectTypeDefinitionNode :=
  {| ot_description := None; ot_name := "Cat";
     ot_interfaces := ["Node"; "Animal"]; ot_fields := [] |}.

Definition foldedCat : FoldedTypeDefinition :=
  {| ftd_description := None; ftd_name := "Cat"; ftd_fields := [] |}.

Definition goodDocument : DocumentNode :=
  {| definitions := [ InputObjectTypeDefinition pick;
                      ObjectTypeDefinition query ] |}.

Definition brokenDocument : DocumentNode :=
  {| definitions := [ ObjectTypeDefinition query;
                      InputObjectTypeDefinition broken;
                      InputObjectTypeDefinition pick ] |}.

Definition enumsOnly : TypeScriptPluginConfig :=
  {| nonOptionalTypename := false; skipTypename := false;
     immutableTypes := false; noExport := false;
     addUnderscoreToArgsType := false; onlyEnums := true;
     onlyOperationTypes := false; futureProofUnions := false;
     enumPrefix := None; typesPrefix := None;
     avoidOptionals := AvoidUndefined;
     directiveArgumentAndInputFieldMappings := None;
     fieldWrapperValue := None; wrapFieldDefinitions := false;
     wrapEntireFieldDefinitions := false; entireFieldWrapperValue := None;
     maybeValue := None; inputMaybeValue := None; useTypeImports := false |}.

(** [type Search { byName(name: String): Int  byTag(tag: String): Int }]. *)
Definition search : ObjectTypeDefinitionNode :=
  {| ot_description := None; ot_name := "Search"; ot_interfaces := [];
     ot_fields :=
       [ field "byName" [inputValue "name" (NamedType "String")]
           (NamedType "Int") [];
         field "byTag" [inputValue "tag" (NamedType "String")]
           (NamedType "Int") [] ] |}.

(** [input Filter { a: Int, b: String }], not a oneOf type. *)
Definition foldedFilter : FoldedTypeDefinition :=
  {| ftd_description := None; ftd_name := "Filter";
     ftd_fields := [ "  a?: InputMaybe<Scalars['Int']>;";
                     "  b?: InputMaybe<Scalars['String']>;" ] |}.

(** The ancestors of a definition and of the fields of [pick]. *)
Definition root : list Ancestor := [AncestorNode DOCUMENT None].

Definition insidePick : list Ancestor :=
  [ AncestorNode DOCUMENT None;
    AncestorArray [INPUT_OBJECT_TYPE_DEFINITION];
    AncestorNode INPUT_OBJECT_TYPE_DEFINITION (Some "Pick") ].

End Sample.

(** ** Further specification *)

(** The configuration with [avoidOptionals] replaced. *)
Definition withAvoidOptionals (config : TypeScriptPluginConfig)
    (a : AvoidOptionals) : TypeScriptPluginConfig :=
  {| nonOptionalTypename := nonOptionalTypename config;
     skipTypename := skipTypename config;
     immutableTypes := immutableTypes config;
     noExport := noExport config;
     addUnderscoreToArgsType := addUnderscoreToArgsType config;
     onlyEnums := onlyEnums config;
     onlyOperationTypes := onlyOperationTypes config;
     futureProofUnions := futureProofUnions config;
     enumPrefix := enumPrefix config;
     typesPrefix := typesPrefix config;
     avoidOptionals := a;
     directiveArgumentAndInputFieldMappings :=
       directiveArgumentAndInputFieldMappings config;
     fieldWrapperValue := fieldWrapperValue config;
     wrapFieldDefinitions := wrapFieldDefinitions config;
     wrapEntireFieldDefinitions := wrapEntireFieldDefinitions config;
     entireFieldWrapperValue := entireFieldWrapperValue config;
     maybeValue := maybeValue config;
     inputMaybeValue := inputMaybeValue config;
     useTypeImports := useTypeImports config |}.

(** The directive has a truthy entry in the configured mappings. *)
Definition hasMapping (config : TypeScriptPluginConfig)
    (directive : DirectiveNode) : bool :=
  match directiveArgumentAndInputFieldMappings config with
  | Some mappings =>
      JS.truthyAt (fun v => negb (v =? "")) mappings
        (nameToString (dir_name directive))
  | None => false
  end.

(** The override a mapped directive stands for. *)
Definition overrideOf (directive : DirectiveNode) : string :=
  "DirectiveArgumentAndInputFieldMappings['"
  ++ nameToString (dir_name directive) ++ "']".

Definition isInputObjectNode (a : Ancestor) : bool :=
  match a with
  | AncestorNode INPUT_OBJECT_TYPE_DEFINITION _ => true
  | _ => false
  end.

Section Rendering.

Context `{Collaborators}.
Variable config : TypeScriptPluginConfig.
Variable schema : GraphQLSchema.
Variable scalarsMap : ParsedScalarsMap.

(** A type rendered for one position, input or output, with no ancestors:
    the position picks the wrapper of every level, and only an output
    position takes the field wrapper. *)
Definition renderNamed (input : bool) (name : string) : string :=
  let resolved := getTypeForNode config schema scalarsMap name in
  if negb input && JS.truthy (fieldWrapperValue config)
     && wrapFieldDefinitions config
  then "FieldWrapper<" ++ resolved ++ ">" else resolved.

Definition wrapperOf (input : bool) (rendered : string) : string :=
  if input then inputWrapper rendered else outputWrapper rendered.

Fixpoint renderType (input : bool) (t : TypeNode) : string :=
  match t with
  | NamedType name => wrapperOf input (renderNamed input name)
  | ListType e => wrapperOf input ("Array<" ++ renderType input e ++ ">")
  | NonNullType e => leaveNonNullType (renderType input e)
  end.

(** A field once its children are folded. *)
Definition foldField (ancestors : list Ancestor) (parent : Ancestor)
    (fd : FieldDefinitionNode) : FoldedField :=
  {| ffd_description := fd_description fd;
     ffd_name := fd_name fd;
     ffd_type :=
       visitType config schema scalarsMap (List.app ancestors [parent])
         (AncestorNode FIELD_DEFINITION (Some (fd_name fd))) (fd_type fd);
     ffd_directives := map visitDirective (fd_directives fd) |}.

End Rendering.

(** What a definition folds to, by its kind: an enum stays a node, a
    schema, scalar or directive definition gives the empty text, every
    other one a text. *)
Definition fragmentShape (d : DefinitionNode) (f : Fragment) : Prop :=
  match d with
  | EnumTypeDefinition _ => f = Untouched
  | SchemaDefinition | ScalarTypeDefinition _ | DirectiveDefinition _ =>
      f = Text ""
  | _ => exists s, f = Text s
  end.

Definition hasNoArguments (fd : FieldDefinitionNode) : bool :=
  Nat.eqb (List.length (fd_arguments fd)) 0.

Definition hasNonNullType (iv : InputValueDefinitionNode) : bool :=
  isNonNullType (iv_type iv).

Module Cases.

(** A schema that flags no type as oneOf. *)
Definition plainSchema : GraphQLSchema := {| getType := fun _ => None |}.

(** [type Query { Pick(id: ID!): Int }], beside [input Pick @oneOf]. *)
Definition collision : ObjectTypeDefinitionNode :=
  {| ot_description := None; ot_name := "Query"; ot_interfaces := [];
     ot_fields :=
       [ Sample.field "Pick"
           [Sample.inputValue "id" (NonNullType (NamedType "ID"))]
           (NamedType "Int") [] ] |}.

(** [enum Color], [scalar Date], [schema], [union Pet = Cat | DateTime],
    [type Query { ... }]. *)
Definition mixedDocument : DocumentNode :=
  {| definitions :=
       [ EnumTypeDefinition "Color"; ScalarTypeDefinition "Date";
         SchemaDefinition;
         UnionTypeDefinition
           {| ut_description := None; ut_name := "Pet";
              ut_types := ["Cat"; "DateTime"] |};
         ObjectTypeDefinition Sample.query ] |}.

(** The sample configuration with [wrapFieldDefinitions] set and no
    wrapper value. *)
Definition wrapping : TypeScriptPluginConfig :=
  {| nonOptionalTypename := false; skipTypename := false;
     immutableTypes := false; noExport := false;
     addUnderscoreToArgsType := false; onlyEnums := false;
     onlyOperationTypes := false; futureProofUnions := false;
     enumPrefix := None; typesPrefix := None;
     avoidOptionals := AvoidUndefined;
     directiveArgumentAndInputFieldMappings := None;
     fieldWrapperValue := None; wrapFieldDefinitions := true;
     wrapEntireFieldDefinitions := false; entireFieldWrapperValue := None;
     maybeValue := None; inputMaybeValue := None; useTypeImports := false |}.

(** [@deprecated(reason: "gone")], as parsed. *)
Definition deprecatedOtherwise : DirectiveNode :=
  {| dir_name := NameObject "deprecated";
     dir_arguments :=
       [ {| arg_name := "reason";
            arg_value := {| value_kind := "StringValue";
                            value_text := "gone" |} |} ] |}.

End Cases.

(** * Properties *)

(** ** Strings *)

Lemma dropPrefix_app (p s : string) : JS.dropPrefix p (p ++ s) = Some s.
Proof.
  induction p as [|a p IH]; simpl; [reflexivity|].
  rewrite Ascii.eqb_refl. exact IH.
Qed.

Lemma append_gt_cons (s : string) :
  exists c r, s ++ ">" = String c r.
Proof. destruct s as [|c r]; simpl; eauto. Qed.

Lemma matchGroupToEnd_app (s : string) :
  JS.noLineTerminator s = true -> JS.matchGroupToEnd (s ++ ">") = Some s.
Proof.
  induction s as [|c r IH]; simpl; intros Hs; [reflexivity|].
  apply andb_true_iff in Hs as [Hc Hr].
  apply negb_true_iff in Hc.
  destruct (append_gt_cons r) as (c' & r' & E).
  rewrite E, Hc, <- E, (IH Hr). reflexivity.
Qed.

Lemma replaceWrapper_match (p s rest group : string) :
  JS.dropPrefix p s = Some rest ->
  JS.matchGroupToEnd rest = Some group ->
  JS.replaceWrapper p s = group.
Proof.
  intros Hp Hg. destruct s; simpl; rewrite Hp, Hg; reflexivity.
Qed.

Lemma replaceWrapper_wrapped (p s : string) :
  JS.noLineTerminator s = true -> JS.replaceWrapper p (p ++ s ++ ">") = s.
Proof.
  intros Hs. eapply replaceWrapper_match.
  - apply dropPrefix_app.
  - apply matchGroupToEnd_app, Hs.
Qed.

Lemma includesKind_input (ancestors : list Ancestor) :
  includesKind (getKindsFromAncestors ancestors) INPUT_OBJECT_TYPE_DEFINITION
  = true <-> hasInputObjectAncestor ancestors.
Proof.
  unfold includesKind, getKindsFromAncestors, hasInputObjectAncestor.
  rewrite existsb_exists. split.
  - intros (e & Hin & He). apply in_map_iff in Hin as (a & <- & Ha).
    destruct a as [k name|ks]; [|discriminate].
    destruct (Kind_eq_dec k INPUT_OBJECT_TYPE_DEFINITION); [|discriminate].
    subst k. now exists name.
  - intros (name & Ha).
    exists (inl INPUT_OBJECT_TYPE_DEFINITION). split.
    + apply in_map_iff.
      now exists (AncestorNode INPUT_OBJECT_TYPE_DEFINITION name).
    + destruct (Kind_eq_dec _ _); congruence.
Qed.

Lemma MaybeString_input (ancestors : list Ancestor) (children : string) :
  hasInputObjectAncestor ancestors ->
  MaybeString ancestors children = inputWrapper children.
Proof.
  intros Ha. apply includesKind_input in Ha.
  unfold MaybeString. now rewrite Ha.
Qed.

Lemma MaybeString_output (ancestors : list Ancestor) (children : string) :
  ~ hasInputObjectAncestor ancestors ->
  MaybeString ancestors children = outputWrapper children.
Proof.
  intros Ha. unfold MaybeString.
  destruct (includesKind _ _) eqn:E; [|reflexivity].
  apply includesKind_input in E. contradiction.
Qed.

Lemma leaveNonNullType_output (rendered : string) :
  JS.noLineTerminator rendered = true ->
  leaveNonNullType (outputWrapper rendered) = rendered.
Proof.
  intros Hs. unfold leaveNonNullType, outputWrapper.
  change (JS.startsWith ("Maybe<" ++ rendered ++ ">") "Maybe") with true.
  cbv iota. now apply replaceWrapper_wrapped.
Qed.

Lemma leaveNonNullType_input (rendered : string) :
  JS.noLineTerminator rendered = true ->
  leaveNonNullType (inputWrapper rendered) = rendered.
Proof.
  intros Hs. unfold leaveNonNullType, inputWrapper.
  change (JS.startsWith ("InputMaybe<" ++ rendered ++ ">") "Maybe")
    with false.
  change (JS.startsWith ("InputMaybe<" ++ rendered ++ ">") "InputMaybe")
    with true.
  cbv iota. now apply replaceWrapper_wrapped.
Qed.

Lemma noLineTerminator_app (a b : string) :
  JS.noLineTerminator (a ++ b)
  = JS.noLineTerminator a && JS.noLineTerminator b.
Proof.
  induction a as [|c r IH]; simpl; [reflexivity|].
  now rewrite IH, andb_assoc.
Qed.

Lemma matchGroupToEnd_noLineTerminator (s : string) :
  forall group,
    JS.matchGroupToEnd s = Some group -> JS.noLineTerminator group = true.
Proof.
  induction s as [|c r IH]; intros group Hg; [discriminate|].
  cbn [JS.matchGroupToEnd] in Hg. destruct r as [|c' r'].
  - destruct (c =? ">")%char; inversion Hg. reflexivity.
  - destruct (JS.isLineTerminator c) eqn:Ec; [discriminate|].
    destruct (JS.matchGroupToEnd (String c' r')) as [g|]; [|discriminate].
    inversion Hg. simpl. rewrite Ec. simpl. now apply IH.
Qed.

Lemma replaceWrapper_noLineTerminator (p s : string) :
  JS.noLineTerminator s = true ->
  JS.noLineTerminator (JS.replaceWrapper p s) = true.
Proof.
  induction s as [|c r IH]; intros Hs; cbn [JS.replaceWrapper].
  - destruct (JS.dropPrefix p "") as [rest|]; [|reflexivity].
    destruct (JS.matchGroupToEnd rest) eqn:Eg; [|reflexivity].
    eapply matchGroupToEnd_noLineTerminator, Eg.
  - simpl in Hs. apply andb_true_iff in Hs as [Hc Hr].
    assert (Hkeep : JS.noLineTerminator
                      (String c (JS.replaceWrapper p r)) = true).
    { simpl. rewrite Hc. simpl. auto. }
    destruct (JS.dropPrefix p (String c r)) as [rest|]; [|exact Hkeep].
    destruct (JS.matchGroupToEnd rest) eqn:Eg; [|exact Hkeep].
    eapply matchGroupToEnd_noLineTerminator, Eg.
Qed.

(** A rendered type holds no line terminator when the names it is built
    from are resolved to texts that hold none. *)
Lemma visitType_noLineTerminator `{Collaborators}
    (config : TypeScriptPluginConfig) (schema : GraphQLSchema)
    (scalarsMap : ParsedScalarsMap) :
  (forall name,
      JS.noLineTerminator (getTypeForNode config schema scalarsMap name)
      = true) ->
  forall t ancestors parent,
    JS.noLineTerminator
      (visitType config schema scalarsMap ancestors parent t) = true.
Proof.
  intros Hnames.
  assert (Hwrap : forall ancestors children,
             JS.noLineTerminator children = true ->
             JS.noLineTerminator (MaybeString ancestors children) = true).
  { intros ancestors children Hc. unfold MaybeString.
    destruct (includesKind _ _); simpl;
      now rewrite noLineTerminator_app, Hc. }
  induction t as [name|t IH|t IH]; intros ancestors parent;
    cbn [visitType].
  - unfold leaveNamedType. apply Hwrap.
    destruct (_ && _); [|apply Hnames].
    simpl. now rewrite noLineTerminator_app, Hnames.
  - unfold leaveListType. apply Hwrap.
    simpl. now rewrite noLineTerminator_app, IH.
  - unfold leaveNonNullType.
    destruct (JS.startsWith _ "Maybe");
      [|destruct (JS.startsWith _ "InputMaybe")];
      try apply replaceWrapper_noLineTerminator; apply IH.
Qed.

(** C6. Wrapping a rendered type in the wrapper of its context, the output
    one or the input one, and then applying the non-null rule gives back
    the rendered type, whatever wrappers and lists it nests: for every
    text that holds no line terminator, and so for everything the fold
    renders from names that are resolved to such texts. *)
Theorem nonNull_undoes_wrapper :
  (forall rendered,
      JS.noLineTerminator rendered = true ->
      leaveNonNullType (outputWrapper rendered) = rendered
      /\ leaveNonNullType (inputWrapper rendered) = rendered
      /\ forall ancestors,
           leaveNonNullType (MaybeString ancestors rendered) = rendered)
  /\ (forall (H : Collaborators) config schema scalarsMap,
         (forall name,
             JS.noLineTerminator
               (getTypeForNode config schema scalarsMap name) = true) ->
         forall t ancestors parent context,
           leaveNonNullType
             (MaybeString context
                (visitType config schema scalarsMap ancestors parent t))
           = visitType config schema scalarsMap ancestors parent t).
Proof.
  assert (Hany : forall rendered,
             JS.noLineTerminator rendered = true ->
             forall ancestors,
               leaveNonNullType (MaybeString ancestors rendered) = rendered).
  { intros rendered Hs ancestors. unfold MaybeString.
    destruct (includesKind _ _).
    - now apply leaveNonNullType_input.
    - now apply leaveNonNullType_output. }
  split.
  - intros rendered Hs. split; [|split].
    + now apply leaveNonNullType_output.
    + now apply leaveNonNullType_input.
    + now apply Hany.
  - intros H config schema scalarsMap Hnames t ancestors parent context.
    apply Hany. now apply visitType_noLineTerminator.
Qed.

Lemma nonNull_undoes_wrapper_nested :
  JS.noLineTerminator "Array<InputMaybe<Array<Scalars['Int']>>>" = true
  /\ leaveNonNullType
       (MaybeString Sample.insidePick
          "Array<InputMaybe<Array<Scalars['Int']>>>")
     = "Array<InputMaybe<Array<Scalars['Int']>>>"
  /\ leaveNonNullType
       (MaybeString Sample.root "Array<Maybe<Array<Scalars['Int']>>>")
     = "Array<Maybe<Array<Scalars['Int']>>>".
Proof.
  split; [reflexivity|]. split.
  - apply (proj1 nonNull_undoes_wrapper
             "Array<InputMaybe<Array<Scalars['Int']>>>" eq_refl).
  - apply (proj1 nonNull_undoes_wrapper
             "Array<Maybe<Array<Scalars['Int']>>>" eq_refl).
Defined.

(** ** Nullability wrappers *)

(** C7. A list type is rendered as the wrapper of its position around
    [Array<T>]: [InputMaybe] when some ancestor is an input-object
    definition, [Maybe] otherwise, whatever the rendering [T] of the
    element type is, wrapped or not. *)
Theorem list_type_rewraps `{Collaborators} (config : TypeScriptPluginConfig)
    (schema : GraphQLSchema) (scalarsMap : ParsedScalarsMap)
    (ancestors : list Ancestor) (parent : Ancestor) (element : TypeNode) :
  let T :=
    visitType config schema scalarsMap (List.app ancestors [parent])
      (AncestorNode LIST_TYPE None) element in
  (hasInputObjectAncestor ancestors ->
   visitType config schema scalarsMap ancestors parent (ListType element)
   = inputWrapper ("Array<" ++ T ++ ">"))
  /\ (~ hasInputObjectAncestor ancestors ->
      visitType config schema scalarsMap ancestors parent (ListType element)
      = outputWrapper ("Array<" ++ T ++ ">")).
Proof.
  simpl. unfold leaveListType. split; intros Ha.
  - now apply MaybeString_input.
  - now apply MaybeString_output.
Qed.

Lemma insidePick_is_input : hasInputObjectAncestor Sample.insidePick.
Proof. exists (Some "Pick"). simpl. auto. Defined.

Lemma list_type_rewraps_in_input :
  hasInputObjectAncestor Sample.insidePick
  /\ visitType (H := Upstream.collaborators) Sample.config Sample.schema
       Sample.scalars Sample.insidePick
       (AncestorNode INPUT_VALUE_DEFINITION (Some "tags"))
       (ListType (NonNullType (NamedType "String")))
     = "InputMaybe<Array<Scalars['String']>>".
Proof.
  split; [exact insidePick_is_input|].
  exact (proj1 (list_type_rewraps (H := Upstream.collaborators)
                  Sample.config Sample.schema Sample.scalars
                  Sample.insidePick
                  (AncestorNode INPUT_VALUE_DEFINITION (Some "tags"))
                  (NonNullType (NamedType "String")))
           insidePick_is_input).
Defined.

Lemma clearOptional_inputWrapper (rendered : string) :
  clearOptional (inputWrapper rendered) = inputWrapper rendered.
Proof. reflexivity. Qed.

Lemma visitType_nullable_input `{Collaborators}
    (config : TypeScriptPluginConfig) (schema : GraphQLSchema)
    (scalarsMap : ParsedScalarsMap) (ancestors : list Ancestor)
    (parent : Ancestor) (t : TypeNode) :
  hasInputObjectAncestor ancestors ->
  isNonNullType t = false ->
  exists inner,
    visitType config schema scalarsMap ancestors parent t
    = inputWrapper inner.
Proof.
  intros Ha Ht. destruct t as [name|t|t]; simpl; [| |discriminate].
  - unfold leaveNamedType. rewrite MaybeString_input by assumption. eauto.
  - unfold leaveListType. rewrite MaybeString_input by assumption. eauto.
Qed.

(** C10. The chosen field of a oneOf variant loses its optional sign and
    nothing else: [clearOptional] leaves alone every text that does not
    start with [Maybe], so the [InputMaybe<...>] a nullable type renders to
    in an input object stays as it is, while a [Maybe<...>] would be
    unwrapped. *)
Theorem oneOf_selected_field_stays_wrapped `{Collaborators}
    (config : TypeScriptPluginConfig) (schema : GraphQLSchema)
    (scalarsMap : ParsedScalarsMap) :
  (forall readonlyPrefix name type addOptionalSign,
      buildFieldDefinition readonlyPrefix name type addOptionalSign true
      = readonlyPrefix ++ name ++ ": " ++ clearOptional type ++ ";")
  /\ (forall text,
         JS.startsWith text "Maybe" = false -> clearOptional text = text)
  /\ (forall rendered,
         clearOptional (inputWrapper rendered) = inputWrapper rendered)
  /\ (forall rendered,
         JS.noLineTerminator rendered = true ->
         clearOptional (outputWrapper rendered) = rendered)
  /\ (forall ancestors parent t,
         hasInputObjectAncestor ancestors ->
         isNonNullType t = false ->
         clearOptional (visitType config schema scalarsMap ancestors parent t)
         = visitType config schema scalarsMap ancestors parent t).
Proof.
  split; [|split; [|split; [|split]]].
  - intros. unfold buildFieldDefinition.
    now rewrite andb_false_r.
  - intros text Ht. unfold clearOptional. now rewrite Ht.
  - intros. apply clearOptional_inputWrapper.
  - intros rendered Hs. unfold clearOptional, outputWrapper.
    change (JS.startsWith ("Maybe<" ++ rendered ++ ">") "Maybe") with true.
    cbv iota. now apply replaceWrapper_wrapped.
  - intros ancestors parent t Ha Ht.
    destruct (visitType_nullable_input config schema scalarsMap ancestors
                parent t Ha Ht) as (inner & ->).
    apply clearOptional_inputWrapper.
Qed.

Lemma oneOf_selected_field_stays_wrapped_in_pick :
  hasInputObjectAncestor Sample.insidePick
  /\ isNonNullType (NamedType "Int") = false
  /\ buildFieldDefinition "" "a"
       (visitType (H := Upstream.collaborators) Sample.config Sample.schema
          Sample.scalars Sample.insidePick
          (AncestorArray [INPUT_VALUE_DEFINITION]) (NamedType "Int"))
       true true
     = "a: InputMaybe<Scalars['Int']>;".
Proof.
  split; [exact insidePick_is_input|]. split; [reflexivity|].
  destruct (oneOf_selected_field_stays_wrapped
              (H := Upstream.collaborators) Sample.config Sample.schema
              Sample.scalars) as (Hbuild & _ & _ & _ & Hkeep).
  rewrite Hbuild.
  rewrite (Hkeep Sample.insidePick (AncestorArray [INPUT_VALUE_DEFINITION])
             (NamedType "Int") insidePick_is_input eq_refl).
  reflexivity.
Defined.

(** ** Scalars *)

Lemma truthyAt_key {V : Type} (o : JS.object V) (k : string) (v : V) :
  JS.get o k = Some v -> JS.truthyAt (fun _ => true) o k = true.
Proof. intros Hk. unfold JS.truthyAt. now rewrite Hk. Qed.

(** C5. A named type whose name is a key of the scalar map is rendered as
    [Scalars['Name']] by the resolver, hence at every named type reference
    the fold meets and for every member of a union; no branch renders the
    mapped type in its place. *)
Theorem scalar_rendered_through_Scalars `{Collaborators}
    (config : TypeScriptPluginConfig) (schema : GraphQLSchema)
    (scalarsMap : ParsedScalarsMap) (name : string) (mapper : ParsedMapper) :
  JS.get scalarsMap name = Some mapper ->
  getTypeForNode config schema scalarsMap name = "Scalars['" ++ name ++ "']"
  /\ possibleType scalarsMap name = "Scalars['" ++ name ++ "']"
  /\ forall ancestors parent,
       visitType config schema scalarsMap ancestors parent (NamedType name)
       = MaybeString ancestors
           (if negb (includesKind (getKindsFromAncestors ancestors)
                       INPUT_OBJECT_TYPE_DEFINITION)
               && JS.truthy (fieldWrapperValue config)
               && wrapFieldDefinitions config
            then "FieldWrapper<" ++ ("Scalars['" ++ name ++ "']") ++ ">"
            else "Scalars['" ++ name ++ "']").
Proof.
  intros Hk. apply truthyAt_key in Hk.
  assert (Hg : getTypeForNode config schema scalarsMap name
               = "Scalars['" ++ name ++ "']").
  { unfold getTypeForNode. now rewrite Hk. }
  split; [exact Hg|]. split.
  - unfold possibleType. now rewrite Hk.
  - intros ancestors parent. cbn [visitType]. unfold leaveNamedType.
    cbv zeta. rewrite Hg. reflexivity.
Qed.

Lemma scalar_rendered_through_Scalars_DateTime :
  JS.get Sample.scalars "DateTime" = Some (Sample.builtin "Date")
  /\ getTypeForNode (H := Upstream.collaborators) Sample.config
       Sample.schema Sample.scalars "DateTime"
     = "Scalars['DateTime']".
Proof.
  split; [reflexivity|].
  exact (proj1 (scalar_rendered_through_Scalars
                  (H := Upstream.collaborators) Sample.config Sample.schema
                  Sample.scalars "DateTime" (Sample.builtin "Date") eq_refl)).
Defined.

(** ** Errors *)

Lemma mapM_Ok_map {A B : Type} (f : A -> result B) (g : A -> B)
    (xs : list A) :
  (forall x, In x xs -> f x = Ok (g x)) -> mapM f xs = Ok (map g xs).
Proof.
  induction xs as [|x r IH]; simpl; intros Hf; [reflexivity|].
  rewrite (Hf x) by auto. simpl. rewrite IH by auto. reflexivity.
Qed.

Lemma mapM_Ok_exists {A B : Type} (f : A -> result B) (xs : list A) :
  (forall x, In x xs -> exists y, f x = Ok y) ->
  exists ys, mapM f xs = Ok ys.
Proof.
  induction xs as [|x r IH]; simpl; intros Hf; [eauto|].
  destruct (Hf x) as (y & ->); auto. simpl.
  destruct IH as (ys & ->); simpl; eauto.
Qed.

Lemma mapM_Ok_or_Throw {A B : Type} (f : A -> result B) (e : string)
    (xs : list A) :
  (forall x, In x xs -> (exists y, f x = Ok y) \/ f x = Throw e) ->
  (exists ys, mapM f xs = Ok ys) \/ mapM f xs = Throw e.
Proof.
  induction xs as [|x r IH]; simpl; intros Hf; [eauto|].
  destruct (Hf x) as [(y & ->)| ->]; auto. simpl.
  destruct IH as [(ys & ->)| ->]; simpl; eauto.
Qed.

Lemma mapM_Throw {A B : Type} (f : A -> result B) (e : string)
    (xs : list A) (bad : A) :
  (forall x, In x xs -> (exists y, f x = Ok y) \/ f x = Throw e) ->
  In bad xs -> f bad = Throw e -> mapM f xs = Throw e.
Proof.
  induction xs as [|x r IH]; simpl; intros Hf Hin Hbad; [contradiction|].
  destruct Hin as [->|Hin]; [now rewrite Hbad|].
  destruct (Hf x) as [(y & ->)| ->]; auto. simpl.
  rewrite IH by auto. reflexivity.
Qed.

Lemma last_named_parent (ancestors : list Ancestor) (parent self : Ancestor) :
  last (map Some (List.app ancestors [parent; self])) None = Some self.
Proof.
  change [parent; self] with (List.app [parent] [self]).
  rewrite app_assoc, map_app. apply last_last.
Qed.

Section FoldErrors.

Context `{Collaborators}.
Variable config : TypeScriptPluginConfig.
Variable schema : GraphQLSchema.
Variable scalarsMap : ParsedScalarsMap.

(** Below a named node, an input value raises exactly when that name is a
    oneOf input object of the schema and the value's type is non-null. *)
Lemma visitInputValueDefinition_below (ancestors : list Ancestor)
    (grandparent parent : Ancestor) (kind : Kind) (name : string)
    (iv : InputValueDefinitionNode) :
  let self := AncestorNode kind (Some name) in
  let outcome :=
    visitInputValueDefinition config schema scalarsMap
      (List.app ancestors [grandparent; self]) parent iv in
  (isOneOfInputObjectType (getType schema name)
   && isNonNullType (iv_type iv) = true -> outcome = Throw oneOfError)
  /\ (isOneOfInputObjectType (getType schema name)
      && isNonNullType (iv_type iv) = false -> exists s, outcome = Ok s).
Proof.
  cbv zeta. unfold visitInputValueDefinition, leaveInputValueDefinition.
  destruct (avoidOptionals config); cbv beta iota zeta;
    rewrite last_named_parent;
    destruct (isOneOfInputObjectType (getType schema name));
    destruct (isNonNullType (iv_type iv)); simpl;
    split; intros; try discriminate; eauto.
Qed.

Lemma visitInputValues_outcome (ancestors : list Ancestor)
    (parent : Ancestor) (kind : Kind) (name : string)
    (ivs : list InputValueDefinitionNode) :
  (exists ss,
      visitInputValues config schema scalarsMap ancestors parent
        (AncestorNode kind (Some name)) ivs = Ok ss)
  \/ visitInputValues config schema scalarsMap ancestors parent
       (AncestorNode kind (Some name)) ivs = Throw oneOfError.
Proof.
  unfold visitInputValues. apply mapM_Ok_or_Throw. intros iv _.
  destruct (visitInputValueDefinition_below ancestors parent
              (AncestorArray (map (fun _ => INPUT_VALUE_DEFINITION) ivs))
              kind name iv) as [Hbad Hgood].
  destruct (isOneOfInputObjectType (getType schema name)
            && isNonNullType (iv_type iv)); auto.
Qed.

Lemma visitFields_outcome (ancestors : list Ancestor) (parent self : Ancestor)
    (fds : list FieldDefinitionNode) :
  (exists ss,
      visitFields config schema scalarsMap ancestors parent self fds = Ok ss)
  \/ visitFields config schema scalarsMap ancestors parent self fds
     = Throw oneOfError.
Proof.
  unfold visitFields. apply mapM_Ok_or_Throw. intros fd _.
  unfold visitFieldDefinition.
  destruct (visitInputValues_outcome
              (List.app ancestors [parent; self])
              (AncestorArray (map (fun _ => FIELD_DEFINITION) fds))
              FIELD_DEFINITION (fd_name fd) (fd_arguments fd))
    as [(ss & ->)| ->]; simpl; eauto.
Qed.

(** The only error a definition can raise is the oneOf one. *)
Lemma visitDefinition_outcome (ancestors : list Ancestor) (parent : Ancestor)
    (d : DefinitionNode) :
  (exists fragment,
      visitDefinition config schema scalarsMap ancestors parent d
      = Ok fragment)
  \/ visitDefinition config schema scalarsMap ancestors parent d
     = Throw oneOfError.
Proof.
  destruct d as [|name|n|n|n|name|n|n]; simpl; eauto.
  - destruct (visitFields_outcome ancestors parent
                (AncestorNode OBJECT_TYPE_DEFINITION (Some (ot_name n)))
                (ot_fields n)) as [(ss & ->)| ->]; simpl; eauto.
  - destruct (visitFields_outcome ancestors parent
                (AncestorNode INTERFACE_TYPE_DEFINITION (Some (ot_name n)))
                (ot_fields n)) as [(ss & ->)| ->]; simpl; eauto.
  - destruct (visitInputValues_outcome ancestors parent
                INPUT_OBJECT_TYPE_DEFINITION (io_name n) (io_fields n))
      as [(ss & ->)| ->]; simpl; eauto.
  - destruct (visitInputValues_outcome ancestors parent
                DIRECTIVE_DEFINITION (dd_name n) (dd_arguments n))
      as [(ss & ->)| ->]; simpl; eauto.
Qed.

Lemma visitInputValues_oneOf_raises (ancestors : list Ancestor)
    (parent : Ancestor) (node : InputObjectTypeDefinitionNode) :
  isOneOfInputObjectType (getType schema (io_name node)) = true ->
  existsb (fun f => isNonNullType (iv_type f)) (io_fields node) = true ->
  visitInputValues config schema scalarsMap ancestors parent
    (AncestorNode INPUT_OBJECT_TYPE_DEFINITION (Some (io_name node)))
    (io_fields node)
  = Throw oneOfError.
Proof.
  intros HoneOf Hbad. apply existsb_exists in Hbad as (bad & Hin & Hnn).
  unfold visitInputValues.
  apply mapM_Throw with (bad := bad); [|assumption|].
  - intros iv _.
    destruct (visitInputValueDefinition_below ancestors parent
                (AncestorArray
                   (map (fun _ => INPUT_VALUE_DEFINITION) (io_fields node)))
                INPUT_OBJECT_TYPE_DEFINITION (io_name node) iv)
      as [Hthrow Hok].
    destruct (isOneOfInputObjectType (getType schema (io_name node))
              && isNonNullType (iv_type iv)); auto.
  - apply visitInputValueDefinition_below. now rewrite HoneOf, Hnn.
Qed.

Lemma visitInputValues_oneOf_nullable (ancestors : list Ancestor)
    (parent : Ancestor) (node : InputObjectTypeDefinitionNode) :
  existsb (fun f => isNonNullType (iv_type f)) (io_fields node) = false ->
  exists ss,
    visitInputValues config schema scalarsMap ancestors parent
      (AncestorNode INPUT_OBJECT_TYPE_DEFINITION (Some (io_name node)))
      (io_fields node)
    = Ok ss.
Proof.
  intros Hnone. unfold visitInputValues. apply mapM_Ok_exists.
  intros iv Hin.
  apply visitInputValueDefinition_below.
  destruct (isNonNullType (iv_type iv)) eqn:E; [|apply andb_false_r].
  assert (Hsome : existsb (fun f => isNonNullType (iv_type f))
                    (io_fields node) = true)
    by (apply existsb_exists; eauto).
  congruence.
Qed.

End FoldErrors.

(** C1. When a oneOf input object of the document has a field of non-null
    type, the fold raises the error of the source and the plugin raises it
    too: it returns no output.  When it has none, folding that type
    returns a fragment. *)
Theorem oneOf_non_null_field_aborts `{Collaborators}
    (config : TypeScriptPluginConfig) (schema : GraphQLSchema)
    (scalarsMap : ParsedScalarsMap) (node : InputObjectTypeDefinitionNode) :
  isOneOfInputObjectType (getType schema (io_name node)) = true ->
  (existsb (fun f => isNonNullType (iv_type f)) (io_fields node) = true ->
   forall document,
     In (InputObjectTypeDefinition node) (definitions document) ->
     visit config schema scalarsMap document = Throw oneOfError
     /\ plugin config schema scalarsMap document = Throw oneOfError)
  /\ (existsb (fun f => isNonNullType (iv_type f)) (io_fields node) = false ->
      forall ancestors parent,
      exists fragment,
        visitDefinition config schema scalarsMap ancestors parent
          (InputObjectTypeDefinition node)
        = Ok fragment).
Proof.
  intros HoneOf. split.
  - intros Hbad document Hin.
    assert (Hvisit : visit config schema scalarsMap document
                     = Throw oneOfError).
    { unfold visit.
      apply mapM_Throw with (bad := InputObjectTypeDefinition node);
        [|assumption|].
      - intros d _. apply visitDefinition_outcome.
      - simpl. now rewrite visitInputValues_oneOf_raises. }
    split; [exact Hvisit|].
    unfold plugin. now rewrite Hvisit.
  - intros Hnone ancestors parent. simpl.
    destruct (visitInputValues_oneOf_nullable config schema scalarsMap
                ancestors parent node Hnone) as (ss & ->).
    simpl. eauto.
Qed.

Lemma oneOf_non_null_field_aborts_sample :
  (isOneOfInputObjectType (getType Sample.schema "Broken") = true
   /\ plugin (H := Upstream.collaborators) Sample.config Sample.schema
        Sample.scalars Sample.brokenDocument
      = Throw oneOfError)
  /\ (isOneOfInputObjectType (getType Sample.schema "Pick") = true
      /\ exists fragment,
           visitDefinition (H := Upstream.collaborators) Sample.config
             Sample.schema Sample.scalars Sample.root
             (AncestorArray [INPUT_OBJECT_TYPE_DEFINITION])
             (InputObjectTypeDefinition Sample.pick)
           = Ok fragment).
Proof.
  split; (split; [reflexivity|]).
  - apply (proj1 (oneOf_non_null_field_aborts
                    (H := Upstream.collaborators) Sample.config
                    Sample.schema Sample.scalars Sample.broken eq_refl)
             eq_refl Sample.brokenDocument).
    simpl. auto.
  - apply (proj2 (oneOf_non_null_field_aborts
                    (H := Upstream.collaborators) Sample.config
                    Sample.schema Sample.scalars Sample.pick eq_refl)
             eq_refl).
Defined.

(** ** Comments *)

(** In the fold every directive name is already a string, so the search
    for a deprecation directive, which reads [name.value], finds none:
    the comment is that of the description alone. *)
Lemma getNodeComment_after_fold `{Collaborators} (description : option string)
    (directives : list DirectiveNode) :
  getNodeComment description (map visitDirective directives)
  = transformComment (descriptionArg description) 1.
Proof.
  unfold getNodeComment.
  replace (find (fun v => nameValueIs (dir_name v) "deprecated")
             (map visitDirective directives)) with (@None DirectiveNode);
    [reflexivity|].
  induction directives as [|d r IH]; simpl; auto.
Qed.

(** C2. The fields [old: Int @deprecated] and
    [stale: Int @deprecated(reason: "use fresh")] of the sample object are
    rendered without any comment, where the specification has
    [@deprecated Field no longer supported] and [use fresh]; and the reason
    read from a directive with an argument is the kind of its value. *)
Theorem deprecation_comment_is_lost :
  visitFields (H := Upstream.collaborators) Sample.config Sample.schema
    Sample.scalars Sample.root (AncestorArray [OBJECT_TYPE_DEFINITION])
    (AncestorNode OBJECT_TYPE_DEFINITION (Some "Query"))
    (ot_fields Sample.query)
  = Ok [ "  user?: Maybe<User>;";
         "  old?: Maybe<Scalars['Int']>;";
         "  stale?: Maybe<Scalars['Int']>;" ]
  /\ getDeprecationReason (visitDirective Sample.deprecated)
     = Some "Field no longer supported"
  /\ getDeprecationReason (visitDirective Sample.deprecatedBecause)
     = Some "StringValue"
  /\ getNodeComment (H := Upstream.collaborators) None
       [visitDirective Sample.deprecated]
     = "".
Proof. repeat split. Qed.

(** ** Arguments *)

(** The rendering of the argument types of a field depends on the
    arguments only through their being there. *)
Lemma buildArgumentsBlock_ignores_arguments `{Collaborators}
    (config : TypeScriptPluginConfig) (description : option string)
    (typeName fieldName : string) (type : TypeNode)
    (a b : InputValueDefinitionNode)
    (arguments others : list InputValueDefinitionNode) :
  buildArgumentsBlock config
    {| ot_description := description; ot_name := typeName;
       ot_interfaces := [];
       ot_fields :=
         [ {| fd_description := None; fd_name := fieldName;
              fd_arguments := a :: arguments; fd_type := type;
              fd_directives := [] |} ] |}
  = buildArgumentsBlock config
      {| ot_description := description; ot_name := typeName;
         ot_interfaces := [];
         ot_fields :=
           [ {| fd_description := None; fd_name := fieldName;
                fd_arguments := b :: others; fd_type := type;
                fd_directives := [] |} ] |}.
Proof. reflexivity. Qed.

(** C3. For [type Query { user(id: ID!): User ... }] the synthesized
    declaration is named [QueryuserArgs] and its body is the empty [{}]:
    the argument [id] is not rendered.  With enum-only generation and two
    fields that declare arguments the result is a line break. *)
Theorem arguments_block_has_no_body :
  buildArgumentsBlock (H := Upstream.collaborators) Sample.config
    Sample.query
  = "export type QueryuserArgs = {};" ++ newline
  /\ buildArgumentsBlock (H := Upstream.collaborators) Sample.enumsOnly
       Sample.search
     = newline.
Proof. split; reflexivity. Qed.

(** ** OneOf input objects *)

(** C4, counterexample.  The arms the fold produces for
    [input Pick @oneOf { a: Int, b: String }]:
    each lists the fields in declaration order and closes every part with
    a semicolon, so the second is not [{ b: String; a?: never }] and does
    not begin with [b]. *)
Lemma oneOf_sample_arms :
  exists arms,
    visitInputValues (H := Upstream.collaborators) Sample.config
      Sample.schema Sample.scalars Sample.root
      (AncestorArray [INPUT_OBJECT_TYPE_DEFINITION])
      (AncestorNode INPUT_OBJECT_TYPE_DEFINITION (Some "Pick"))
      (io_fields Sample.pick)
    = Ok arms
    /\ arms = [ "  { a: InputMaybe<Scalars['Int']>; b?: never; }";
                "  { a?: never; b: InputMaybe<Scalars['String']>; }" ]
    /\ (nth 0 arms "" =? "  { a: Int; b?: never }") = false
    /\ (nth 1 arms "" =? "  { b: String; a?: never }") = false
    /\ JS.startsWith (nth 1 arms "") "  { b" = false.
Proof. eexists. repeat split. Qed.

Section OneOf.

Context `{Collaborators}.
Variable config : TypeScriptPluginConfig.
Variable schema : GraphQLSchema.
Variable scalarsMap : ParsedScalarsMap.

Lemma visitInputValueDefinition_oneOf (ancestors : list Ancestor)
    (grandparent parent : Ancestor) (name : string) (t : GraphQLNamedType)
    (fields : list InputValueDefinitionNode) (f : InputValueDefinitionNode) :
  getType schema name = Some t ->
  typeKind t = InputObjectKind ->
  isOneOf t = true ->
  getFields t = map iv_name fields ->
  isNonNullType (iv_type f) = false ->
  let inside :=
    List.app ancestors
      [grandparent; AncestorNode INPUT_OBJECT_TYPE_DEFINITION (Some name)] in
  visitInputValueDefinition config schema scalarsMap inside parent f
  = Ok (oneOfVariant config schema scalarsMap inside parent fields f).
Proof.
  intros Ht Hkind Hflag Hfields Hnull. cbv zeta.
  unfold visitInputValueDefinition, leaveInputValueDefinition.
  destruct (avoidOptionals config); cbv beta iota zeta;
    rewrite last_named_parent, Ht; unfold isOneOfInputObjectType;
    rewrite Hkind, Hflag, Hnull, Hfields;
    unfold oneOfVariant, oneOfFieldParts, buildFieldDefinition;
    rewrite map_map, andb_false_r;
    cbn [foldInputValue fiv_description fiv_directives fiv_name];
    rewrite getNodeComment_after_fold; reflexivity.
Qed.

End OneOf.

(** C4. For a oneOf input object whose fields are all nullable, the
    declaration's content is a union with one arm per declared field, in
    declaration order; every arm lists all declared fields in declaration
    order, its own field with its rendered type and no optional sign, every
    other field as [name?: never;]. *)
Theorem oneOf_body_is_union_of_variants `{Collaborators}
    (config : TypeScriptPluginConfig) (schema : GraphQLSchema)
    (scalarsMap : ParsedScalarsMap) (ancestors : list Ancestor)
    (parent : Ancestor) (node : InputObjectTypeDefinitionNode)
    (t : GraphQLNamedType) :
  getType schema (io_name node) = Some t ->
  typeKind t = InputObjectKind ->
  isOneOf t = true ->
  getFields t = map iv_name (io_fields node) ->
  forallb (fun f => negb (isNonNullType (iv_type f))) (io_fields node)
  = true ->
  onlyEnums config = false ->
  let self :=
    AncestorNode INPUT_OBJECT_TYPE_DEFINITION (Some (io_name node)) in
  let array :=
    AncestorArray (map (fun _ => INPUT_VALUE_DEFINITION) (io_fields node)) in
  let arms :=
    map (oneOfVariant config schema scalarsMap
           (List.app ancestors [parent; self]) array (io_fields node))
      (io_fields node) in
  List.length arms = List.length (io_fields node)
  /\ visitInputValues config schema scalarsMap ancestors parent self
       (io_fields node)
     = Ok arms
  /\ visitDefinition config schema scalarsMap ancestors parent
       (InputObjectTypeDefinition node)
     = Ok (Text
             (blockString
                (setContent
                   (newDeclarationBlock config "type"
                      (convertName (io_name node) noOptions)
                      (descriptionArg (io_description node)))
                   (newline ++ JS.join (newline ++ "  |") arms)))).
Proof.
  intros Ht Hkind Hflag Hfields Hnull Henums self array arms.
  assert (Harms : visitInputValues config schema scalarsMap ancestors parent
                    self (io_fields node) = Ok arms).
  { unfold visitInputValues. apply mapM_Ok_map. intros f Hin.
    apply visitInputValueDefinition_oneOf with (t := t); auto.
    rewrite forallb_forall in Hnull. apply negb_true_iff. auto. }
  split; [apply length_map|]. split; [exact Harms|].
  cbn [visitDefinition]. fold self. rewrite Harms. cbn [bind].
  unfold leaveInputObjectTypeDefinition. cbn [ftd_name ftd_fields].
  rewrite Henums, Ht. unfold isOneOfInputObjectType.
  rewrite Hkind, Hflag. reflexivity.
Qed.

Lemma oneOf_body_is_union_of_variants_pick :
  visitDefinition (H := Upstream.collaborators) Sample.config Sample.schema
    Sample.scalars Sample.root
    (AncestorArray [INPUT_OBJECT_TYPE_DEFINITION])
    (InputObjectTypeDefinition Sample.pick)
  = Ok (Text
          ("export type Pick =" ++ newline
           ++ "  { a: InputMaybe<Scalars['Int']>; b?: never; }" ++ newline
           ++ "  |  { a?: never; b: InputMaybe<Scalars['String']>; };"
           ++ newline)).
Proof.
  exact (proj2 (proj2 (oneOf_body_is_union_of_variants
                         (H := Upstream.collaborators) Sample.config
                         Sample.schema Sample.scalars Sample.root
                         (AncestorArray [INPUT_OBJECT_TYPE_DEFINITION])
                         Sample.pick Sample.oneOfType eq_refl eq_refl
                         eq_refl eq_refl eq_refl eq_refl))).
Defined.

(** ** Object types *)

(** C8. The content of an object type that declares interfaces is their
    converted names joined by [ & ], and its block is the discriminant
    line, unless skipped, followed by the type's fields; one more [ & ]
    links the names to the block, and it is left out exactly when there is
    no line at all.  With two interfaces and the discriminant as the only
    line, the content is [A & B & ] and the block is that line. *)
Theorem interfaces_merged_with_fields `{Collaborators}
    (config : TypeScriptPluginConfig) (node : FoldedTypeDefinition)
    (originalNode : ObjectTypeDefinitionNode) (first : string)
    (rest : list string) :
  ot_interfaces originalNode = first :: rest ->
  let block := getObjectTypeDeclarationBlock config node originalNode in
  let names :=
    map (fun i => convertName i noOptions) (ot_interfaces originalNode) in
  let lines :=
    List.app (discriminantLines config (ftd_name node)) (ftd_fields node) in
  withBlock block = Some (JS.join newline lines)
  /\ (lines = [] -> withContent block = Some (JS.join " & " names))
  /\ (lines <> [] ->
      withContent block = Some (JS.join " & " names ++ " & "))
  /\ (forall a b,
         ot_interfaces originalNode = [a; b] ->
         ftd_fields node = [] ->
         skipTypename config = false ->
         withContent block
         = Some ((convertName a noOptions ++ " & " ++ convertName b noOptions)
                 ++ " & ")
         /\ withBlock block
            = Some ("  "
                    ++ (if immutableTypes config then "readonly " else "")
                    ++ (if nonOptionalTypename config then "__typename"
                        else "__typename?")
                    ++ ": '" ++ ftd_name node ++ "';")).
Proof.
  intros Hi block names lines.
  assert (Hblock : withBlock block = Some (JS.join newline lines))
    by reflexivity.
  assert (Hcontent :
            withContent block
            = Some (mergeInterfaces names
                      (negb (Nat.eqb (List.length lines) 0))))
    by reflexivity.
  assert (Hnames : Nat.eqb (List.length names) 0 = false).
  { unfold names. rewrite Hi. reflexivity. }
  unfold mergeInterfaces in Hcontent. rewrite Hnames in Hcontent.
  split; [exact Hblock|]. split; [|split].
  - intros Hl. rewrite Hcontent, Hl. simpl.
    f_equal. clear. induction (JS.join " & " names); simpl; congruence.
  - intros Hl. rewrite Hcontent.
    destruct lines; [contradiction|reflexivity].
  - intros a b Hab Hf Hskip. split.
    + rewrite Hcontent. unfold names, lines, discriminantLines.
      rewrite Hab, Hf, Hskip. reflexivity.
    + rewrite Hblock. unfold lines, discriminantLines.
      rewrite Hf, Hskip. reflexivity.
Qed.

Lemma interfaces_merged_with_fields_cat :
  ot_interfaces Sample.cat = ["Node"; "Animal"]
  /\ withContent
       (getObjectTypeDeclarationBlock (H := Upstream.collaborators)
          Sample.config Sample.foldedCat Sample.cat)
     = Some "Node & Animal & "
  /\ withBlock
       (getObjectTypeDeclarationBlock (H := Upstream.collaborators)
          Sample.config Sample.foldedCat Sample.cat)
     = Some "  __typename?: 'Cat';"
  /\ leaveObjectTypeDefinition (H := Upstream.collaborators) Sample.config
       Sample.foldedCat Sample.cat
     = "export type Cat = Node & Animal & {" ++ newline
       ++ "  __typename?: 'Cat';" ++ newline ++ "};" ++ newline.
Proof.
  split; [reflexivity|].
  destruct (proj2 (proj2 (proj2
              (interfaces_merged_with_fields (H := Upstream.collaborators)
                 Sample.config Sample.foldedCat Sample.cat "Node" ["Animal"]
                 eq_refl)))
              "Node" "Animal" eq_refl eq_refl eq_refl) as [Hc Hb].
  split; [exact Hc|]. split; [exact Hb|]. reflexivity.
Defined.

(** ** Suppression flags *)

(** C9. With [onlyOperationTypes] set and [onlyEnums] unset, the callbacks
    of object, interface and union definitions return the empty string, so
    a union folds to the empty fragment and an object or an interface
    does too unless the fold of its fields raised; the callback of an
    input-object definition still returns the text of a [type]
    declaration that carries the folded fields, and that text is the
    fragment the definition folds to. *)
Theorem operations_only_keeps_input_objects `{Collaborators}
    (config : TypeScriptPluginConfig) (schema : GraphQLSchema)
    (scalarsMap : ParsedScalarsMap) :
  onlyOperationTypes config = true ->
  onlyEnums config = false ->
  (forall node originalNode,
      leaveObjectTypeDefinition config node originalNode = ""
      /\ leaveInterfaceTypeDefinition config node originalNode = "")
  /\ (forall node originalNode,
         leaveUnionTypeDefinition config scalarsMap node originalNode = "")
  /\ (forall ancestors parent u n,
         visitDefinition config schema scalarsMap ancestors parent
           (UnionTypeDefinition u) = Ok (Text "")
         /\ (visitDefinition config schema scalarsMap ancestors parent
               (ObjectTypeDefinition n) = Ok (Text "")
             \/ visitDefinition config schema scalarsMap ancestors parent
                  (ObjectTypeDefinition n) = Throw oneOfError)
         /\ (visitDefinition config schema scalarsMap ancestors parent
               (InterfaceTypeDefinition n) = Ok (Text "")
             \/ visitDefinition config schema scalarsMap ancestors parent
                  (InterfaceTypeDefinition n) = Throw oneOfError))
  /\ (forall ancestors parent n fields,
         visitInputValues config schema scalarsMap ancestors parent
           (AncestorNode INPUT_OBJECT_TYPE_DEFINITION (Some (io_name n)))
           (io_fields n) = Ok fields ->
         visitDefinition config schema scalarsMap ancestors parent
           (InputObjectTypeDefinition n)
         = Ok (Text (leaveInputObjectTypeDefinition config schema
                       {| ftd_description := io_description n;
                          ftd_name := io_name n;
                          ftd_fields := fields |})))
  /\ (forall node,
       exists block,
         leaveInputObjectTypeDefinition config schema node
         = blockString block
         /\ export block = true
         /\ asKind block = "type"
         /\ withName block = convertName (ftd_name node) noOptions
         /\ (withBlock block = Some (JS.join newline (ftd_fields node))
             \/ withContent block
                = Some (newline
                        ++ JS.join (newline ++ "  |") (ftd_fields node)))).
Proof.
  intros Hops Henums.
  assert (Hobject : forall node originalNode,
             leaveObjectTypeDefinition config node originalNode = "").
  { intros. unfold leaveObjectTypeDefinition. now rewrite Hops. }
  assert (Hinterface : forall node originalNode,
             leaveInterfaceTypeDefinition config node originalNode = "").
  { intros. unfold leaveInterfaceTypeDefinition. now rewrite Hops. }
  assert (Hunion : forall node originalNode,
             leaveUnionTypeDefinition config scalarsMap node originalNode
             = "").
  { intros. unfold leaveUnionTypeDefinition. now rewrite Hops. }
  split; [auto|]. split; [exact Hunion|]. split.
  - intros ancestors parent u n. cbn [visitDefinition].
    rewrite Hunion. split; [reflexivity|]. split.
    + destruct (visitFields_outcome config schema scalarsMap ancestors
                  parent
                  (AncestorNode OBJECT_TYPE_DEFINITION (Some (ot_name n)))
                  (ot_fields n)) as [(ss & ->)| ->]; cbn [bind]; auto.
      rewrite Hobject. auto.
    + destruct (visitFields_outcome config schema scalarsMap ancestors
                  parent
                  (AncestorNode INTERFACE_TYPE_DEFINITION (Some (ot_name n)))
                  (ot_fields n)) as [(ss & ->)| ->]; cbn [bind]; auto.
      rewrite Hinterface. auto.
  - split; [intros ancestors parent n fields Hf; cbn [visitDefinition];
            now rewrite Hf|].
    intros node. unfold leaveInputObjectTypeDefinition. rewrite Henums.
    destruct (isOneOfInputObjectType (getType schema (ftd_name node)));
      eexists; (split; [reflexivity|]); cbn; auto.
Qed.

Lemma operations_only_keeps_input_objects_sample :
  onlyOperationTypes Sample.operationsOnly = true
  /\ onlyEnums Sample.operationsOnly = false
  /\ leaveObjectTypeDefinition (H := Upstream.collaborators)
       Sample.operationsOnly Sample.foldedCat Sample.cat
     = ""
  /\ leaveInputObjectTypeDefinition (H := Upstream.collaborators)
       Sample.operationsOnly Sample.schema Sample.foldedFilter
     = "export type Filter = {" ++ newline
       ++ "  a?: InputMaybe<Scalars['Int']>;" ++ newline
       ++ "  b?: InputMaybe<Scalars['String']>;" ++ newline
       ++ "};" ++ newline.
Proof.
  split; [reflexivity|]. split; [reflexivity|]. split.
  - apply (proj1 (operations_only_keeps_input_objects
                    (H := Upstream.collaborators) Sample.operationsOnly
                    Sample.schema Sample.scalars eq_refl eq_refl)).
  - reflexivity.
Defined.

(** * Further properties *)

(** ** Strings and indentation *)

Lemma append_nil_r (s : string) : s ++ "" = s.
Proof. induction s as [|c r IH]; simpl; congruence. Qed.

Lemma append_assoc (a b c : string) : (a ++ b) ++ c = a ++ b ++ c.
Proof. induction a as [|x r IH]; simpl; congruence. Qed.

Lemma length_append (a b : string) :
  String.length (a ++ b) = String.length a + String.length b.
Proof. induction a as [|x r IH]; simpl; congruence. Qed.

Lemma indent_S (str : string) (count : nat) :
  indent str (S count) = "  " ++ indent str count.
Proof.
  unfold indent, JS.join. destruct count as [|k].
  - reflexivity.
  - change (repeat "  " (S (S k))) with ("  " :: repeat "  " (S k)).
    cbn [String.concat repeat].
    change ("  " ++ "" ++ ?x) with ("  " ++ x).
    now rewrite append_assoc.
Qed.

(** X1. Indenting by [n] levels after indenting by [m] is indenting by
    [n + m]; no level leaves the text as it is, and each level adds two
    characters. *)
Theorem indent_composes (str : string) (m n : nat) :
  indent (indent str m) n = indent str (n + m)
  /\ indent str 0 = str
  /\ String.length (indent str n) = 2 * n + String.length str.
Proof.
  split; [|split].
  - induction n as [|k IH]; [reflexivity|].
    rewrite indent_S, IH. symmetry. apply indent_S.
  - reflexivity.
  - induction n as [|k IH]; [reflexivity|].
    rewrite indent_S. cbn [String.length append]. rewrite IH. lia.
Qed.

(** ** Imports and helper types *)

Lemma buildTypeImport_not_empty (identifier source : string)
    (asDefault useTypeImports : bool) :
  (buildTypeImport identifier source asDefault useTypeImports =? "") = false.
Proof. destruct asDefault, useTypeImports; reflexivity. Qed.

(** X2. The scalar imports are the import statements of the external
    entries of the scalar map, one each, in the order of the map; an entry
    that is not external gives none. *)
Theorem getScalarsImports_external_only (scalars : ParsedScalarsMap)
    (useTypeImports : bool) :
  getScalarsImports scalars useTypeImports
  = map (fun entry =>
           buildTypeImport (mapper_import (snd entry))
             (mapper_source (snd entry)) (mapper_default (snd entry))
             useTypeImports)
      (filter (fun entry => mapper_isExternal (snd entry)) scalars)
  /\ List.length (getScalarsImports scalars useTypeImports)
     = List.length
         (filter (fun entry => mapper_isExternal (snd entry)) scalars).
Proof.
  assert (Hmap : getScalarsImports scalars useTypeImports
                 = map (fun entry =>
                          buildTypeImport (mapper_import (snd entry))
                            (mapper_source (snd entry))
                            (mapper_default (snd entry)) useTypeImports)
                     (filter (fun entry => mapper_isExternal (snd entry))
                        scalars)).
  { unfold getScalarsImports.
    induction scalars as [|[k v] r IH]; [reflexivity|].
    cbn [map filter snd]. destruct (mapper_isExternal v).
    - rewrite buildTypeImport_not_empty. cbn [negb map]. now rewrite IH.
    - cbn. exact IH. }
  split; [exact Hmap|]. rewrite Hmap. apply length_map.
Qed.

(** X3. Unless enum-only generation is asked for, the helper types are
    five, plus one for each of the two field wrappers that is switched on,
    and each starts with [export] exactly when exporting is not
    suppressed; with enum-only generation there is none. *)
Theorem getWrapperDefinitions_count (config : TypeScriptPluginConfig) :
  (onlyEnums config = true -> getWrapperDefinitions config = [])
  /\ (onlyEnums config = false ->
      List.length (getWrapperDefinitions config)
      = 5 + (if wrapFieldDefinitions config then 1 else 0)
        + (if wrapEntireFieldDefinitions config then 1 else 0)
      /\ Forall (fun definition =>
                   JS.startsWith definition "export "
                   = negb (noExport config))
           (getWrapperDefinitions config)).
Proof.
  unfold getWrapperDefinitions. split; intros ->; [reflexivity|].
  destruct (noExport config), (wrapFieldDefinitions config),
    (wrapEntireFieldDefinitions config);
    (split; [reflexivity|]); repeat constructor.
Qed.

Lemma getWrapperDefinitions_count_sample :
  onlyEnums Sample.config = false
  /\ List.length (getWrapperDefinitions Sample.config) = 5
  /\ getWrapperDefinitions Sample.enumsOnly = [].
Proof.
  split; [reflexivity|]. split.
  - exact (proj1 (proj2 (getWrapperDefinitions_count Sample.config)
                    eq_refl)).
  - exact (proj1 (getWrapperDefinitions_count Sample.enumsOnly) eq_refl).
Defined.

(** ** Directives *)

(** X4. The type override of an input value is that of the last of its
    directives that has a mapping: a mapped directive appended to the list
    takes over, an unmapped one changes nothing, and with no directive or
    no configured mapping there is no override. *)
Theorem directive_override_last_wins (config : TypeScriptPluginConfig)
    (directives : list DirectiveNode) (directive : DirectiveNode) :
  _getDirectiveOverrideType (List.app directives [directive]) config
  = (if hasMapping config directive then Some (overrideOf directive)
     else _getDirectiveOverrideType directives config)
  /\ _getDirectiveOverrideType [] config = None
  /\ (directiveArgumentAndInputFieldMappings config = None ->
      _getDirectiveOverrideType directives config = None).
Proof.
  split; [|split].
  - unfold _getDirectiveOverrideType, hasMapping, overrideOf.
    rewrite map_app, rev_app_distr. cbn [map rev List.app find].
    destruct (directiveArgumentAndInputFieldMappings config) as [m|];
      [|reflexivity].
    destruct (JS.truthyAt _ m _); reflexivity.
  - reflexivity.
  - intros Hnone. unfold _getDirectiveOverrideType. rewrite Hnone.
    induction directives as [|d r IH] using rev_ind; [reflexivity|].
    rewrite map_app, rev_app_distr. cbn [map rev List.app find]. exact IH.
Qed.

Lemma directive_override_last_wins_sample :
  directiveArgumentAndInputFieldMappings Sample.config = None
  /\ _getDirectiveOverrideType [Sample.deprecated] Sample.config = None.
Proof.
  split; [reflexivity|].
  exact (proj2 (proj2 (directive_override_last_wins Sample.config
                         [Sample.deprecated] Sample.deprecated)) eq_refl).
Defined.

Lemma nameValueIs_excludes_nameIs (n : NameRep) (s t : string) :
  nameValueIs n s = true -> nameIs n t = false.
Proof. destruct n; [discriminate|reflexivity]. Qed.

(** X5. Whatever shape the directive names have, the comment of a member
    never carries a deprecation reason: when a directive is found to be
    the deprecation one (its name an object whose [value] is
    [deprecated]), the reason asked of it is [undefined], and otherwise
    the comment is that of the description alone. *)
Theorem getNodeComment_never_a_reason `{Collaborators}
    (description : option string) (directives : list DirectiveNode) :
  getNodeComment description directives
  = transformComment
      (if existsb (fun v => nameValueIs (dir_name v) "deprecated") directives
       then CommentText
              ((match description with
                | Some _ => "[object Object]" ++ newline
                | None => ""
                end) ++ "@deprecated undefined")
       else descriptionArg description) 1.
Proof.
  unfold getNodeComment.
  induction directives as [|d r IH]; [reflexivity|].
  cbn [find existsb].
  destruct (nameValueIs (dir_name d) "deprecated") eqn:E; [|exact IH].
  cbn [orb]. unfold getDeprecationReason.
  now rewrite (nameValueIs_excludes_nameIs _ _ "deprecated" E).
Qed.

(** X6. The deprecation reason depends on the arguments of the directive
    only through the kind of the value of the first one: two directives
    of the same name whose first arguments have values of the same kind
    get the same reason, whatever the texts of the values are. *)
Theorem getDeprecationReason_ignores_text (name : NameRep)
    (a b : ArgumentNode) (more others : list ArgumentNode) :
  value_kind (arg_value a) = value_kind (arg_value b) ->
  getDeprecationReason {| dir_name := name; dir_arguments := a :: more |}
  = getDeprecationReason {| dir_name := name; dir_arguments := b :: others |}.
Proof.
  intros Hk. unfold getDeprecationReason. cbn. now rewrite Hk.
Qed.

Lemma getDeprecationReason_ignores_text_sample :
  getDeprecationReason (visitDirective Sample.deprecatedBecause)
  = getDeprecationReason (visitDirective Cases.deprecatedOtherwise).
Proof.
  exact (getDeprecationReason_ignores_text (NameString "deprecated")
           {| arg_name := "reason";
              arg_value := {| value_kind := "StringValue";
                              value_text := "use fresh" |} |}
           {| arg_name := "reason";
              arg_value := {| value_kind := "StringValue";
                              value_text := "gone" |} |}
           [] [] eq_refl).
Defined.

(** ** The fold as a whole *)

(** X7. [avoidOptionals] given as a boolean is not read by the fold: with
    [true] or [false] the document folds exactly as with the option left
    out; only its object form can remove optional signs. *)
Theorem avoidOptionals_boolean_is_ignored `{Collaborators}
    (config : TypeScriptPluginConfig) (schema : GraphQLSchema)
    (scalarsMap : ParsedScalarsMap) (b : bool) (document : DocumentNode) :
  visit (withAvoidOptionals config (AvoidBoolean b)) schema scalarsMap
    document
  = visit (withAvoidOptionals config AvoidUndefined) schema scalarsMap
      document.
Proof. reflexivity. Qed.

Lemma mapM_length {A B : Type} (f : A -> result B) (xs : list A) :
  forall ys, mapM f xs = Ok ys -> List.length ys = List.length xs.
Proof.
  induction xs as [|x r IH]; simpl; intros ys Hys.
  - inversion Hys. reflexivity.
  - destruct (f x) as [y|]; [|discriminate]. simpl in Hys.
    destruct (mapM f r) as [zs|]; [|discriminate]. simpl in Hys.
    inversion Hys. simpl. f_equal. now apply IH.
Qed.

Lemma mapM_Forall2 {A B : Type} (f : A -> result B) (R : A -> B -> Prop)
    (xs : list A) :
  (forall x y, In x xs -> f x = Ok y -> R x y) ->
  forall ys, mapM f xs = Ok ys -> Forall2 R xs ys.
Proof.
  induction xs as [|x r IH]; simpl; intros HR ys Hys.
  - inversion Hys. constructor.
  - destruct (f x) as [y|] eqn:Ex; [|discriminate]. simpl in Hys.
    destruct (mapM f r) as [zs|]; [|discriminate]. simpl in Hys.
    inversion Hys. constructor; auto.
Qed.

Section WholeFold.

Context `{Collaborators}.
Variable config : TypeScriptPluginConfig.
Variable schema : GraphQLSchema.
Variable scalarsMap : ParsedScalarsMap.

Lemma visitInputValues_plain (ancestors : list Ancestor) (parent : Ancestor)
    (kind : Kind) (name : string) (ivs : list InputValueDefinitionNode) :
  isOneOfInputObjectType (getType schema name) = false ->
  exists ss,
    visitInputValues config schema scalarsMap ancestors parent
      (AncestorNode kind (Some name)) ivs = Ok ss.
Proof.
  intros Hplain. unfold visitInputValues. apply mapM_Ok_exists.
  intros iv _. apply visitInputValueDefinition_below. now rewrite Hplain.
Qed.

Lemma visitInputValues_raises (ancestors : list Ancestor) (parent : Ancestor)
    (kind : Kind) (name : string) (ivs : list InputValueDefinitionNode) :
  isOneOfInputObjectType (getType schema name) = true ->
  existsb hasNonNullType ivs = true ->
  visitInputValues config schema scalarsMap ancestors parent
    (AncestorNode kind (Some name)) ivs = Throw oneOfError.
Proof.
  intros HoneOf Hbad. apply existsb_exists in Hbad as (bad & Hin & Hnn).
  unfold visitInputValues.
  apply mapM_Throw with (bad := bad); [|assumption|].
  - intros iv _.
    destruct (visitInputValueDefinition_below config schema scalarsMap
                ancestors parent
                (AncestorArray (map (fun _ => INPUT_VALUE_DEFINITION) ivs))
                kind name iv) as [Hthrow Hok].
    destruct (isOneOfInputObjectType (getType schema name)
              && isNonNullType (iv_type iv)); auto.
  - apply visitInputValueDefinition_below.
    unfold hasNonNullType in Hnn. now rewrite HoneOf, Hnn.
Qed.

Lemma visitFieldDefinition_outcome (ancestors : list Ancestor)
    (parent : Ancestor) (fd : FieldDefinitionNode) :
  (exists s,
      visitFieldDefinition config schema scalarsMap ancestors parent fd
      = Ok s)
  \/ visitFieldDefinition config schema scalarsMap ancestors parent fd
     = Throw oneOfError.
Proof.
  unfold visitFieldDefinition.
  destruct (visitInputValues_outcome config schema scalarsMap ancestors
              parent FIELD_DEFINITION (fd_name fd) (fd_arguments fd))
    as [(ss & ->)| ->]; simpl; eauto.
Qed.

Lemma visitFields_plain (ancestors : list Ancestor) (parent self : Ancestor)
    (fds : list FieldDefinitionNode) :
  (forall name, isOneOfInputObjectType (getType schema name) = false) ->
  exists ss,
    visitFields config schema scalarsMap ancestors parent self fds = Ok ss.
Proof.
  intros Hplain. unfold visitFields. apply mapM_Ok_exists. intros fd _.
  unfold visitFieldDefinition.
  destruct (visitInputValues_plain
              (List.app ancestors [parent; self])
              (AncestorArray (map (fun _ => FIELD_DEFINITION) fds))
              FIELD_DEFINITION (fd_name fd) (fd_arguments fd)
              (Hplain (fd_name fd))) as (ss & ->).
  simpl. eauto.
Qed.

Lemma visitDefinition_plain (ancestors : list Ancestor) (parent : Ancestor)
    (d : DefinitionNode) :
  (forall name, isOneOfInputObjectType (getType schema name) = false) ->
  exists fragment,
    visitDefinition config schema scalarsMap ancestors parent d
    = Ok fragment.
Proof.
  intros Hplain. destruct d as [|name|n|n|n|name|n|n]; simpl; eauto.
  - destruct (visitFields_plain ancestors parent
                (AncestorNode OBJECT_TYPE_DEFINITION (Some (ot_name n)))
                (ot_fields n) Hplain) as (ss & ->). simpl. eauto.
  - destruct (visitFields_plain ancestors parent
                (AncestorNode INTERFACE_TYPE_DEFINITION (Some (ot_name n)))
                (ot_fields n) Hplain) as (ss & ->). simpl. eauto.
  - destruct (visitInputValues_plain ancestors parent
                INPUT_OBJECT_TYPE_DEFINITION (io_name n) (io_fields n)
                (Hplain (io_name n))) as (ss & ->). simpl. eauto.
  - destruct (visitInputValues_plain ancestors parent
                DIRECTIVE_DEFINITION (dd_name n) (dd_arguments n)
                (Hplain (dd_name n))) as (ss & ->). simpl. eauto.
Qed.

Lemma visitDefinition_shape (ancestors : list Ancestor) (parent : Ancestor)
    (d : DefinitionNode) (fragment : Fragment) :
  visitDefinition config schema scalarsMap ancestors parent d = Ok fragment ->
  fragmentShape d fragment.
Proof.
  destruct d as [|name|n|n|n|name|n|n]; simpl; intros Hd;
    try (inversion Hd; eauto; fail).
  - destruct (visitFields _ _ _ _ _ _ _); simpl in Hd; inversion Hd; eauto.
  - destruct (visitFields _ _ _ _ _ _ _); simpl in Hd; inversion Hd; eauto.
  - destruct (visitInputValues _ _ _ _ _ _ _); simpl in Hd; inversion Hd;
      eauto.
  - destruct (visitInputValues _ _ _ _ _ _ _); simpl in Hd; inversion Hd;
      eauto.
Qed.

End WholeFold.

(** X8. When the schema flags no type as oneOf, the fold of a document
    never raises: it returns one fragment for each definition, and the
    plugin returns an output. *)
Theorem fold_without_oneOf_never_raises `{Collaborators}
    (config : TypeScriptPluginConfig) (schema : GraphQLSchema)
    (scalarsMap : ParsedScalarsMap) (document : DocumentNode) :
  (forall name, isOneOfInputObjectType (getType schema name) = false) ->
  (exists fragments,
      visit config schema scalarsMap document = Ok fragments
      /\ List.length fragments = List.length (definitions document))
  /\ exists output, plugin config schema scalarsMap document = Ok output.
Proof.
  intros Hplain.
  assert (Hvisit : exists fragments,
             visit config schema scalarsMap document = Ok fragments).
  { unfold visit. apply mapM_Ok_exists. intros d _.
    now apply visitDefinition_plain. }
  destruct Hvisit as (fragments & Hf). split.
  - exists fragments. split; [exact Hf|].
    unfold visit in Hf. now apply mapM_length in Hf.
  - unfold plugin. rewrite Hf. simpl. eauto.
Qed.

Lemma fold_without_oneOf_never_raises_sample :
  exists output,
    plugin (H := Upstream.collaborators) Sample.config Cases.plainSchema
      Sample.scalars Sample.brokenDocument = Ok output.
Proof.
  exact (proj2 (fold_without_oneOf_never_raises
                  (H := Upstream.collaborators) Sample.config
                  Cases.plainSchema Sample.scalars Sample.brokenDocument
                  (fun _ => eq_refl))).
Defined.

(** X9. The oneOf check looks the enclosing node up by its name, whatever
    its kind: an object or interface type with a field that has the name
    of a oneOf input object and an argument of non-null type aborts the
    fold with the oneOf error. *)
Theorem field_named_like_oneOf_aborts `{Collaborators}
    (config : TypeScriptPluginConfig) (schema : GraphQLSchema)
    (scalarsMap : ParsedScalarsMap) (ancestors : list Ancestor)
    (parent : Ancestor) (node : ObjectTypeDefinitionNode)
    (fd : FieldDefinitionNode) :
  In fd (ot_fields node) ->
  isOneOfInputObjectType (getType schema (fd_name fd)) = true ->
  existsb hasNonNullType (fd_arguments fd) = true ->
  visitDefinition config schema scalarsMap ancestors parent
    (ObjectTypeDefinition node) = Throw oneOfError
  /\ visitDefinition config schema scalarsMap ancestors parent
       (InterfaceTypeDefinition node) = Throw oneOfError.
Proof.
  intros Hin HoneOf Hbad.
  assert (Hfields : forall self,
             visitFields config schema scalarsMap ancestors parent self
               (ot_fields node) = Throw oneOfError).
  { intros self. unfold visitFields.
    apply mapM_Throw with (bad := fd); [|assumption|].
    - intros x _. apply visitFieldDefinition_outcome.
    - unfold visitFieldDefinition.
      now rewrite visitInputValues_raises. }
  split; cbn [visitDefinition]; now rewrite Hfields.
Qed.

Lemma field_named_like_oneOf_aborts_sample :
  isOneOfInputObjectType (getType Sample.schema "Pick") = true
  /\ visitDefinition (H := Upstream.collaborators) Sample.config
       Sample.schema Sample.scalars Sample.root
       (AncestorArray [OBJECT_TYPE_DEFINITION])
       (ObjectTypeDefinition Cases.collision)
     = Throw oneOfError.
Proof.
  split; [reflexivity|].
  apply (field_named_like_oneOf_aborts (H := Upstream.collaborators)
           Sample.config Sample.schema Sample.scalars Sample.root
           (AncestorArray [OBJECT_TYPE_DEFINITION]) Cases.collision
           (Sample.field "Pick"
              [Sample.inputValue "id" (NonNullType (NamedType "ID"))]
              (NamedType "Int") [])).
  - simpl. auto.
  - reflexivity.
  - reflexivity.
Defined.

(** X10. Every definition folds to a fragment set by its kind, in the
    order of the document: an enum definition, which no callback handles,
    stays a node; a schema, scalar or directive definition gives the empty
    text; every other one gives a text. *)
Theorem fragments_follow_definitions `{Collaborators}
    (config : TypeScriptPluginConfig) (schema : GraphQLSchema)
    (scalarsMap : ParsedScalarsMap) (document : DocumentNode)
    (fragments : list Fragment) :
  visit config schema scalarsMap document = Ok fragments ->
  Forall2 fragmentShape (definitions document) fragments.
Proof.
  unfold visit. apply mapM_Forall2. intros d f _.
  apply visitDefinition_shape.
Qed.

Lemma fragments_follow_definitions_sample :
  exists fragments,
    visit (H := Upstream.collaborators) Sample.config Sample.schema
      Sample.scalars Cases.mixedDocument = Ok fragments
    /\ Forall2 fragmentShape (definitions Cases.mixedDocument) fragments
    /\ nth 0 fragments (Text "") = Untouched.
Proof.
  eexists. split; [reflexivity|]. split.
  - apply (fragments_follow_definitions (H := Upstream.collaborators)
             Sample.config Sample.schema Sample.scalars
             Cases.mixedDocument).
    reflexivity.
  - reflexivity.
Defined.

Lemma mapM_Ok_inv {A B : Type} (f : A -> result B) (g : A -> B)
    (xs : list A) :
  (forall x y, In x xs -> f x = Ok y -> y = g x) ->
  forall ys, mapM f xs = Ok ys -> ys = map g xs.
Proof.
  induction xs as [|x r IH]; simpl; intros Hg ys Hys.
  - now inversion Hys.
  - destruct (f x) as [y|] eqn:Ex; [|discriminate]. simpl in Hys.
    destruct (mapM f r) as [zs|]; [|discriminate]. simpl in Hys.
    inversion Hys. f_equal; auto.
Qed.

Lemma visitDefinition_onlyEnums `{Collaborators}
    (config : TypeScriptPluginConfig) (schema : GraphQLSchema)
    (scalarsMap : ParsedScalarsMap) (ancestors : list Ancestor)
    (parent : Ancestor) (d : DefinitionNode) (fragment : Fragment) :
  onlyEnums config = true ->
  visitDefinition config schema scalarsMap ancestors parent d = Ok fragment ->
  fragment = Text "" \/ fragment = Untouched.
Proof.
  intros Henums.
  destruct d as [|name|n|n|n|name|n|n]; simpl; intros Hd;
    try (inversion Hd; auto; fail).
  - destruct (visitFields _ _ _ _ _ _ _); simpl in Hd; inversion Hd.
    unfold leaveObjectTypeDefinition. rewrite Henums, orb_true_r. auto.
  - destruct (visitFields _ _ _ _ _ _ _); simpl in Hd; inversion Hd.
    unfold leaveInterfaceTypeDefinition. rewrite Henums, orb_true_r. auto.
  - inversion Hd. unfold leaveUnionTypeDefinition.
    rewrite Henums, orb_true_r. auto.
  - destruct (visitInputValues _ _ _ _ _ _ _); simpl in Hd; inversion Hd.
    unfold leaveInputObjectTypeDefinition. rewrite Henums. auto.
  - destruct (visitInputValues _ _ _ _ _ _ _); simpl in Hd; inversion Hd.
    auto.
Qed.

(** X11. With enum-only generation no declaration of an object, interface,
    union or input-object type is produced: every fragment of the fold is
    the empty text, or the node of an enum definition; and the plugin
    prepends the import lists alone, no helper type. *)
Theorem onlyEnums_leaves_no_declaration `{Collaborators}
    (config : TypeScriptPluginConfig) (schema : GraphQLSchema)
    (scalarsMap : ParsedScalarsMap) (document : DocumentNode) :
  onlyEnums config = true ->
  (forall fragments,
      visit config schema scalarsMap document = Ok fragments ->
      Forall (fun f => f = Text "" \/ f = Untouched) fragments)
  /\ (forall output,
         plugin config schema scalarsMap document = Ok output ->
         prepend output
         = filter (fun s => negb (s =? ""))
             (List.app
                [enumImportsDeclaration schema config;
                 directiveImportsDeclaration config]
                (getScalarsImports scalarsMap (useTypeImports config)))).
Proof.
  intros Henums. split.
  - intros fragments Hf. unfold visit in Hf.
    apply (mapM_Forall2 _ (fun _ f => f = Text "" \/ f = Untouched)) in Hf.
    + induction Hf; constructor; auto.
    + intros d f _. now apply visitDefinition_onlyEnums.
  - intros output Hp. unfold plugin in Hp.
    destruct (visit config schema scalarsMap document); simpl in Hp;
      inversion Hp.
    cbn [prepend]. unfold getWrapperDefinitions. rewrite Henums.
    now rewrite app_nil_r.
Qed.

Lemma onlyEnums_leaves_no_declaration_sample :
  onlyEnums Sample.enumsOnly = true
  /\ visit (H := Upstream.collaborators) Sample.enumsOnly Sample.schema
       Sample.scalars Cases.mixedDocument
     = Ok [Untouched; Text ""; Text ""; Text ""; Text ""]
  /\ Forall (fun f => f = Text "" \/ f = Untouched)
       [Untouched; Text ""; Text ""; Text ""; Text ""].
Proof.
  split; [reflexivity|]. split; [reflexivity|].
  apply (proj1 (onlyEnums_leaves_no_declaration
                  (H := Upstream.collaborators) Sample.enumsOnly
                  Sample.schema Sample.scalars Cases.mixedDocument
                  eq_refl)).
  reflexivity.
Defined.

(** ** Declarations *)

Lemma no_field_with_arguments (fds : list FieldDefinitionNode) :
  forallb hasNoArguments fds = true ->
  filter (fun field => negb (Nat.eqb (List.length (fd_arguments field)) 0))
    fds = [].
Proof.
  induction fds as [|fd r IH]; simpl; intros Hn; [reflexivity|].
  apply andb_true_iff in Hn as [Hfd Hr]. unfold hasNoArguments in Hfd.
  rewrite Hfd. simpl. auto.
Qed.

(** X12. A type none of whose fields declares arguments gets no argument
    declaration, and, unless suppressed, an object or an interface type
    then folds to the text of its own declaration alone, with nothing
    appended. *)
Theorem type_without_arguments_is_its_declaration `{Collaborators}
    (config : TypeScriptPluginConfig) (node : FoldedTypeDefinition)
    (originalNode : ObjectTypeDefinitionNode) :
  forallb hasNoArguments (ot_fields originalNode) = true ->
  buildArgumentsBlock config originalNode = ""
  /\ (onlyOperationTypes config = false ->
      onlyEnums config = false ->
      leaveObjectTypeDefinition config node originalNode
      = blockString (getObjectTypeDeclarationBlock config node originalNode)
      /\ leaveInterfaceTypeDefinition config node originalNode
         = blockString
             (setBlock
                (newDeclarationBlock config "interface"
                   (convertName (ftd_name node) noOptions)
                   (descriptionArg (ftd_description node)))
                (JS.join newline (ftd_fields node)))).
Proof.
  intros Hnone.
  assert (Hargs : buildArgumentsBlock config originalNode = "").
  { unfold buildArgumentsBlock.
    now rewrite no_field_with_arguments. }
  split; [exact Hargs|]. intros Hops Henums. split.
  - unfold leaveObjectTypeDefinition. rewrite Hops, Henums, Hargs.
    cbn. apply append_nil_r.
  - unfold leaveInterfaceTypeDefinition. rewrite Hops, Henums, Hargs.
    cbn [orb filter].
    destruct (blockString _ =? "") eqn:E; cbn.
    + apply String.eqb_eq in E. symmetry. exact E.
    + reflexivity.
Qed.

Lemma type_without_arguments_is_its_declaration_cat :
  forallb hasNoArguments (ot_fields Sample.cat) = true
  /\ buildArgumentsBlock (H := Upstream.collaborators) Sample.config
       Sample.cat = "".
Proof.
  split; [reflexivity|].
  exact (proj1 (type_without_arguments_is_its_declaration
                  (H := Upstream.collaborators) Sample.config
                  Sample.foldedCat Sample.cat eq_refl)).
Defined.

Lemma hasInputObjectAncestor_app (ancestors : list Ancestor) (a : Ancestor) :
  hasInputObjectAncestor (List.app ancestors [a])
  <-> hasInputObjectAncestor ancestors \/ isInputObjectNode a = true.
Proof.
  unfold hasInputObjectAncestor. split.
  - intros (name & Hin). apply in_app_or in Hin as [Hin|[Ha|[]]].
    + left. eauto.
    + right. subst a. reflexivity.
  - intros [(name & Hin)|Ha].
    + exists name. apply in_or_app. auto.
    + destruct a as [k name|ks]; [|discriminate].
      destruct k; try discriminate.
      exists name. apply in_or_app. right. simpl. auto.
Qed.

(** ** Types *)

(** X13. The position of a type is decided once for the whole type
    expression: under an input-object definition every level of it, named
    type or list, is wrapped in [InputMaybe] and no field wrapper is
    applied; elsewhere every level is wrapped in [Maybe].  The fold with
    its ancestors agrees with the rendering for that one position. *)
Theorem type_rendered_for_one_position `{Collaborators}
    (config : TypeScriptPluginConfig) (schema : GraphQLSchema)
    (scalarsMap : ParsedScalarsMap) (t : TypeNode) :
  forall ancestors parent,
    (hasInputObjectAncestor ancestors ->
     visitType config schema scalarsMap ancestors parent t
     = renderType config schema scalarsMap true t)
    /\ (~ hasInputObjectAncestor ancestors ->
        isInputObjectNode parent = false ->
        visitType config schema scalarsMap ancestors parent t
        = renderType config schema scalarsMap false t).
Proof.
  induction t as [name|e IH|e IH]; intros ancestors parent; split.
  - intros Ha. cbn [visitType renderType]. unfold leaveNamedType, renderNamed.
    rewrite (proj2 (includesKind_input ancestors) Ha).
    now apply MaybeString_input.
  - intros Ha _. cbn [visitType renderType].
    unfold leaveNamedType, renderNamed.
    destruct (includesKind _ _) eqn:E;
      [apply includesKind_input in E; contradiction|].
    now apply MaybeString_output.
  - intros Ha. cbn [visitType renderType]. unfold leaveListType.
    rewrite MaybeString_input by assumption.
    rewrite (proj1 (IH (List.app ancestors [parent])
                      (AncestorNode LIST_TYPE None))); [reflexivity|].
    apply hasInputObjectAncestor_app. auto.
  - intros Ha Hp. cbn [visitType renderType]. unfold leaveListType.
    rewrite MaybeString_output by assumption.
    rewrite (proj2 (IH (List.app ancestors [parent])
                      (AncestorNode LIST_TYPE None))); [reflexivity| |].
    + intros Hb. apply hasInputObjectAncestor_app in Hb as [Hb|Hb];
        [contradiction|congruence].
    + reflexivity.
  - intros Ha. cbn [visitType renderType].
    rewrite (proj1 (IH (List.app ancestors [parent])
                      (AncestorNode NON_NULL_TYPE None))); [reflexivity|].
    apply hasInputObjectAncestor_app. auto.
  - intros Ha Hp. cbn [visitType renderType].
    rewrite (proj2 (IH (List.app ancestors [parent])
                      (AncestorNode NON_NULL_TYPE None))); [reflexivity| |].
    + intros Hb. apply hasInputObjectAncestor_app in Hb as [Hb|Hb];
        [contradiction|congruence].
    + reflexivity.
Qed.

Lemma type_rendered_for_one_position_sample :
  hasInputObjectAncestor Sample.insidePick
  /\ visitType (H := Upstream.collaborators) Sample.config Sample.schema
       Sample.scalars Sample.insidePick
       (AncestorArray [INPUT_VALUE_DEFINITION])
       (ListType (ListType (NonNullType (NamedType "Int"))))
     = "InputMaybe<Array<InputMaybe<Array<Scalars['Int']>>>>".
Proof.
  split; [exact insidePick_is_input|].
  rewrite (proj1 (type_rendered_for_one_position
                    (H := Upstream.collaborators) Sample.config
                    Sample.schema Sample.scalars
                    (ListType (ListType (NonNullType (NamedType "Int"))))
                    Sample.insidePick
                    (AncestorArray [INPUT_VALUE_DEFINITION]))
             insidePick_is_input).
  reflexivity.
Defined.

(** X14. An object type that is not suppressed folds to the text of a
    declaration whose block holds the discriminant line, unless skipped,
    and then one entry for each declared field, in declaration order, each
    the rendering of that field. *)
Theorem object_block_has_a_line_per_field `{Collaborators}
    (config : TypeScriptPluginConfig) (schema : GraphQLSchema)
    (scalarsMap : ParsedScalarsMap) (ancestors : list Ancestor)
    (parent : Ancestor) (node : ObjectTypeDefinitionNode)
    (fragment : Fragment) :
  onlyOperationTypes config = false ->
  onlyEnums config = false ->
  visitDefinition config schema scalarsMap ancestors parent
    (ObjectTypeDefinition node) = Ok fragment ->
  let self :=
    AncestorNode OBJECT_TYPE_DEFINITION (Some (ot_name node)) in
  let array :=
    AncestorArray (map (fun _ => FIELD_DEFINITION) (ot_fields node)) in
  let lines :=
    map (fun fd =>
           leaveFieldDefinition config
             (foldField config schema scalarsMap
                (List.app ancestors [parent; self]) array fd) fd)
      (ot_fields node) in
  let block :=
    getObjectTypeDeclarationBlock config
      {| ftd_description := ot_description node;
         ftd_name := ot_name node;
         ftd_fields := lines |} node in
  fragment = Text (blockString block ++ buildArgumentsBlock config node)
  /\ withBlock block
     = Some (JS.join newline
               (List.app (discriminantLines config (ot_name node)) lines))
  /\ List.length lines = List.length (ot_fields node).
Proof.
  intros Hops Henums Hd self array lines block.
  cbn [visitDefinition] in Hd. fold self in Hd.
  destruct (visitFields config schema scalarsMap ancestors parent self
              (ot_fields node)) as [ss|] eqn:Hf; [|discriminate].
  assert (Hss : ss = lines).
  { unfold visitFields in Hf. fold array in Hf.
    apply (mapM_Ok_inv _ (fun fd =>
                            leaveFieldDefinition config
                              (foldField config schema scalarsMap
                                 (List.app ancestors [parent; self])
                                 array fd) fd)) in Hf; [exact Hf|].
    intros fd y _ Hy. unfold visitFieldDefinition in Hy.
    destruct (visitInputValues _ _ _ _ _ _ _); simpl in Hy; now inversion Hy. }
  subst ss. cbn [bind] in Hd. inversion Hd.
  split; [|split].
  - unfold leaveObjectTypeDefinition. rewrite Hops, Henums. reflexivity.
  - reflexivity.
  - apply length_map.
Qed.

Lemma object_block_has_a_line_per_field_query :
  exists fragment,
    visitDefinition (H := Upstream.collaborators) Sample.config
      Sample.schema Sample.scalars Sample.root
      (AncestorArray [OBJECT_TYPE_DEFINITION])
      (ObjectTypeDefinition Sample.query)
    = Ok fragment
    /\ exists block,
         fragment
         = Text (Upstream.blockString block
                 ++ buildArgumentsBlock (H := Upstream.collaborators)
                      Sample.config Sample.query)
         /\ withBlock block
            = Some ("  __typename?: 'Query';" ++ newline
                    ++ "  user?: Maybe<User>;" ++ newline
                    ++ "  old?: Maybe<Scalars['Int']>;" ++ newline
                    ++ "  stale?: Maybe<Scalars['Int']>;").
Proof.
  eexists. split; [reflexivity|]. eexists. split.
  - apply (proj1 (object_block_has_a_line_per_field
                    (H := Upstream.collaborators) Sample.config
                    Sample.schema Sample.scalars Sample.root
                    (AncestorArray [OBJECT_TYPE_DEFINITION]) Sample.query
                    _ eq_refl eq_refl eq_refl)).
  - reflexivity.
Defined.

Lemma visitType_output_position `{Collaborators}
    (config : TypeScriptPluginConfig) (schema : GraphQLSchema)
    (scalarsMap : ParsedScalarsMap) (ancestors : list Ancestor)
    (parent : Ancestor) (t : TypeNode) :
  includesKind (getKindsFromAncestors ancestors) INPUT_OBJECT_TYPE_DEFINITION
  = false ->
  isInputObjectNode parent = false ->
  visitType config schema scalarsMap ancestors parent t
  = renderType config schema scalarsMap false t.
Proof.
  intros Hk Hp. apply type_rendered_for_one_position; [|exact Hp].
  intros Ha. apply includesKind_input in Ha. congruence.
Qed.

(** X15. In a document, the type of a field of an input object is rendered
    for the input position; the type of a field of an object type, the
    type of an argument of such a field and the type of an argument of a
    directive definition are rendered for the output position, so
    arguments are wrapped in [Maybe], not in [InputMaybe]. *)
Theorem positions_in_a_document `{Collaborators}
    (config : TypeScriptPluginConfig) (schema : GraphQLSchema)
    (scalarsMap : ParsedScalarsMap) (siblings members arguments : list Kind)
    (typeName fieldName : string) (iv : InputValueDefinitionNode)
    (fd : FieldDefinitionNode) :
  let document := [AncestorNode DOCUMENT None; AncestorArray siblings] in
  fiv_type
    (foldInputValue config schema scalarsMap
       (List.app document
          [AncestorNode INPUT_OBJECT_TYPE_DEFINITION (Some typeName)])
       (AncestorArray members) iv)
  = renderType config schema scalarsMap true (iv_type iv)
  /\ ffd_type
       (foldField config schema scalarsMap
          (List.app document
             [AncestorNode OBJECT_TYPE_DEFINITION (Some typeName)])
          (AncestorArray members) fd)
     = renderType config schema scalarsMap false (fd_type fd)
  /\ fiv_type
       (foldInputValue config schema scalarsMap
          (List.app document
             [AncestorNode OBJECT_TYPE_DEFINITION (Some typeName);
              AncestorArray members;
              AncestorNode FIELD_DEFINITION (Some fieldName)])
          (AncestorArray arguments) iv)
     = renderType config schema scalarsMap false (iv_type iv)
  /\ fiv_type
       (foldInputValue config schema scalarsMap
          (List.app document
             [AncestorNode DIRECTIVE_DEFINITION (Some typeName)])
          (AncestorArray arguments) iv)
     = renderType config schema scalarsMap false (iv_type iv).
Proof.
  cbv zeta. cbn [foldInputValue foldField fiv_type ffd_type].
  split; [|split; [|split]].
  - apply type_rendered_for_one_position.
    exists (Some typeName). apply in_or_app. left. simpl. auto.
  - apply visitType_output_position; reflexivity.
  - apply visitType_output_position; reflexivity.
  - apply visitType_output_position; reflexivity.
Qed.

(** X16. It is [wrapFieldDefinitions] that puts the type of every field
    inside [EntireFieldWrapper<...>], while the helper type of that name
    is declared only under [wrapEntireFieldDefinitions]: with the first
    set and the second unset, fields refer to a helper type that is not
    among the helper definitions. *)
Theorem entire_field_wrapper_follows_wrapFieldDefinitions `{Collaborators}
    (config : TypeScriptPluginConfig) :
  wrapFieldDefinitions config = true ->
  (forall (node : FoldedField) (originalFieldNode : FieldDefinitionNode),
      exists before,
        leaveFieldDefinition config node originalFieldNode
        = before ++ ": EntireFieldWrapper<" ++ ffd_type node ++ ">;")
  /\ (wrapEntireFieldDefinitions config = false ->
      Forall (fun definition =>
                JS.startsWith definition
                  ((if noExport config then "" else "export ")
                   ++ "type EntireFieldWrapper")
                = false)
        (getWrapperDefinitions config)).
Proof.
  intros Hwrap. split.
  - intros node originalFieldNode. unfold leaveFieldDefinition.
    rewrite Hwrap. unfold indent. cbn [repeat JS.join String.concat].
    exists (getNodeComment (ffd_description node) (ffd_directives node)
            ++ "  " ++ (if immutableTypes config then "readonly " else "")
            ++ ffd_name node
            ++ (if negb match avoidOptionals config with
                        | AvoidObject f _ _ _ => f
                        | _ => false
                        end
                   && negb (isNonNullType (fd_type originalFieldNode))
                then "?" else "")).
    repeat (rewrite !append_assoc; cbn [append]). reflexivity.
  - intros Hentire. unfold getWrapperDefinitions.
    rewrite Hwrap, Hentire.
    destruct (onlyEnums config); [constructor|].
    destruct (noExport config); repeat constructor.
Qed.

Lemma entire_field_wrapper_follows_wrapFieldDefinitions_sample :
  wrapFieldDefinitions Cases.wrapping = true
  /\ wrapEntireFieldDefinitions Cases.wrapping = false
  /\ visitFields (H := Upstream.collaborators) Cases.wrapping Sample.schema
       Sample.scalars Sample.root (AncestorArray [OBJECT_TYPE_DEFINITION])
       (AncestorNode OBJECT_TYPE_DEFINITION (Some "Cat"))
       [Sample.field "name" [] (NamedType "String") []]
     = Ok ["  name?: EntireFieldWrapper<Maybe<Scalars['String']>>;"]
  /\ Forall (fun definition =>
               JS.startsWith definition "export type EntireFieldWrapper"
               = false)
       (getWrapperDefinitions Cases.wrapping).
Proof.
  split; [reflexivity|]. split; [reflexivity|]. split; [reflexivity|].
  exact (proj2 (entire_field_wrapper_follows_wrapFieldDefinitions
                  (H := Upstream.collaborators) Cases.wrapping eq_refl)
           eq_refl).
Defined.
